(** * eval_averages: extraction of instructor-evaluation data

    A shallow embedding of [extract.py] (line reconstruction, front-page
    and rating-table extraction, the per-document driver) and of the
    [Rating] value class of [calculate.py], with the properties of the
    specification stated over it.

    Conventions of the embedding:
    - a Python [str] is a [string]; a character is a code point below 256;
    - a Python [int] is a [Z] (unbounded);
    - a coordinate ([float(word.get('xMin', 0))]) is a rational: the code
      only compares coordinates, it never computes with them;
    - a [dict] is an association list in insertion order;
    - a call that can raise returns a [result]; [Optional[Dict]] is an
      [option] inside it. *)

From Stdlib Require Import String Ascii List ZArith QArith Bool Lia Lqa.
From Stdlib Require Import Sorting.Sorted Sorting.Permutation.
From Stdlib Require Import DecimalString DecimalNat.
Import ListNotations.

Local Open Scope string_scope.
Local Open Scope list_scope.

(** ** Exceptions and results *)

Inductive exn : Type :=
| IndexError
| ValueError
| AttributeError.

Inductive result (A : Type) : Type :=
| Ret (a : A)
| Raise (e : exn).

Arguments Ret {A} a.
Arguments Raise {A} e.

Definition bind {A B : Type} (m : result A) (k : A -> result B) : result B :=
  match m with
  | Ret a => k a
  | Raise e => Raise e
  end.

Notation "x <- m ;; k" := (bind m (fun x => k))
  (at level 61, m at next level, right associativity).

(** ** Python values and dictionaries *)

Inductive pyval : Type :=
| PStr (s : string)
| PInt (z : Z).

Definition dict : Type := list (string * pyval).

Fixpoint dict_get (d : dict) (k : string) : option pyval :=
  match d with
  | [] => None
  | (k', v) :: d' => if String.eqb k' k then Some v else dict_get d' k
  end.

(** [d[k] = v]: an existing key keeps its place, a new one goes last. *)
Fixpoint dict_set (d : dict) (k : string) (v : pyval) : dict :=
  match d with
  | [] => [(k, v)]
  | (k', v') :: d' =>
      if String.eqb k' k then (k', v) :: d' else (k', v') :: dict_set d' k v
  end.

(** [d.update(other)] *)
Definition dict_update (d other : dict) : dict :=
  fold_left (fun acc kv => dict_set acc (fst kv) (snd kv)) other d.

(** ** Strings as Python has them *)

Module Str.

Fixpoint drop (n : nat) (s : string) : string :=
  match n, s with
  | O, _ => s
  | S _, EmptyString => EmptyString
  | S n', String _ s' => drop n' s'
  end.

Fixpoint take (n : nat) (s : string) : string :=
  match n, s with
  | O, _ => EmptyString
  | S _, EmptyString => EmptyString
  | S n', String c s' => String c (take n' s')
  end.

(** The leftmost occurrence of [sep] in [s]: the text before it and the
    text after it. *)
Fixpoint cut (sep s : string) : option (string * string) :=
  if prefix sep s then Some (EmptyString, drop (String.length sep) s)
  else
    match s with
    | EmptyString => None
    | String c s' =>
        match cut sep s' with
        | Some (b, a) => Some (String c b, a)
        | None => None
        end
    end.

(** [sub in s] *)
Definition contains (sub s : string) : bool :=
  match cut sub s with
  | Some _ => true
  | None => false
  end.

(** [s.split(sep, maxsplit)] for a non-empty [sep]: at most [maxsplit]
    cuts, leftmost first. *)
Fixpoint splitn (maxsplit : nat) (sep s : string) : list string :=
  match maxsplit with
  | O => [s]
  | S m =>
      match cut sep s with
      | Some (b, a) => b :: splitn m sep a
      | None => [s]
      end
  end.

(** [s.split(sep)] for a non-empty [sep]: a string of [n] characters holds
    at most [n] occurrences, so [n] cuts are as good as no limit
    (lemma [splitn_enough]). *)
Definition split (sep s : string) : list string :=
  splitn (String.length s) sep s.

(** [str.isspace] on the code points below 256. *)
Definition is_space (c : ascii) : bool :=
  let n := nat_of_ascii c in
  ((9 <=? n) && (n <=? 13) || (28 <=? n) && (n <=? 32)
   || (n =? 133) || (n =? 160))%nat.

Fixpoint lstrip (s : string) : string :=
  match s with
  | EmptyString => EmptyString
  | String c s' => if is_space c then lstrip s' else s
  end.

Fixpoint rstrip (s : string) : string :=
  match s with
  | EmptyString => EmptyString
  | String c s' =>
      match rstrip s' with
      | EmptyString => if is_space c then EmptyString else String c EmptyString
      | r => String c r
      end
  end.

(** [s.strip()] *)
Definition strip (s : string) : string := rstrip (lstrip s).

(** [sep.join(l)] *)
Fixpoint join (sep : string) (l : list string) : string :=
  match l with
  | [] => EmptyString
  | [s] => s
  | s :: l' => s ++ sep ++ join sep l'
  end.

End Str.

(** ** calculate.py: the Rating value class *)

Record Rating : Type := mkRating {
  poor : Z;
  below_average : Z;
  average : Z;
  good : Z;
  excellent : Z
}.

Module RatingOps.

Definition zero : Rating := mkRating 0 0 0 0 0.

Definition add (self other : Rating) : Rating :=
  mkRating (poor self + poor other)
           (below_average self + below_average other)
           (average self + average other)
           (good self + good other)
           (excellent self + excellent other).

Definition to_list (self : Rating) : list Z :=
  [poor self; below_average self; average self; good self; excellent self].

Definition get_count (self : Rating) : Z :=
  poor self + below_average self + average self + good self + excellent self.

End RatingOps.

(** ** extract.py *)

Definition LINE_TITLE : string :=
  "15 Taking everything into account, the instructor was:".

Definition LINE_COLS : string := "Field Mean Std Deviation Count".

Definition SENTINEL : string :=
  "There are no results yet to show. Please distribute your survey to gather responses.".

(** [s[1:-1]] *)
Definition extract_paren (s : string) : string :=
  Str.drop 1 (Str.take (String.length s - 1) s).

(** [l[i]] *)
Definition index {A : Type} (l : list A) (i : nat) : result A :=
  match nth_error l i with
  | Some a => Ret a
  | None => Raise IndexError
  end.

(** [a, b = l] *)
Definition unpack2 {A : Type} (l : list A) : result (A * A) :=
  match l with
  | [a; b] => Ret (a, b)
  | _ => Raise ValueError
  end.

(** The [for name in ...] loop of [extract_frontpage]: the first name of
    the list whose [name + " -"] occurs in the line splits it, and the
    loop is left. [None] stands for [before is None]. *)
Fixpoint split_on_names (names : list string) (line : string)
  : result (option (string * string)) :=
  match names with
  | [] => Ret None
  | name :: rest =>
      if Str.contains (name ++ " -")%string line
      then ba <- unpack2 (Str.split (name ++ " -")%string line) ;; Ret (Some ba)
      else split_on_names rest line
  end.

(** The dictionary of line 77. *)
Definition front_record (course instructor year semester : string) : dict :=
  [("course", PStr course); ("instructor", PStr instructor);
   ("year", PStr year); ("semester", PStr semester)].

(** Lines 69-77: from [before] and [after] to the record. *)
Definition frontpage_fields (before after : string) : result (option dict) :=
  ys <- unpack2 (Str.splitn 1 " " (Str.strip before)) ;;
  let '(year, semester) := ys in
  ci <- (if Str.contains ")" after
         then ci <- unpack2 (Str.split ")" after) ;;
              Ret ((fst ci ++ ")")%string, Str.strip (snd ci))
         else unpack2 (Str.splitn 1 " " (Str.strip after))) ;;
  let '(course, instructor) := ci in
  Ret (Some (front_record course instructor year semester)).

(** Lines 58-77: what [extract_frontpage] does with [line], the list of
    names the loop runs over being a parameter. The message printed to
    stderr is not modelled. *)
Definition frontpage_of_line (names : list string) (line : string)
  : result (option dict) :=
  ba <- split_on_names names line ;;
  ba <- (match ba with
         | None =>
             if Str.contains "CS" line
             then ba <- unpack2 (Str.splitn 1 "CS" line) ;; Ret (Some ba)
             else Ret None
         | Some _ => Ret ba
         end) ;;
  match ba with
  | None => Ret None
  | Some (before, after) => frontpage_fields before after
  end.

Definition extract_frontpage_with (names : list string) (table : list string)
  : result (option dict) :=
  if (List.length table <? 2)%nat then Ret None
  else line <- index table 1 ;; frontpage_of_line names line.

Definition extract_frontpage : list string -> result (option dict) :=
  extract_frontpage_with ["Eval"; "Evals"; "Evaluation"].

(** [l[-3:]] *)
Definition last3 {A : Type} (l : list A) : list A :=
  skipn (List.length l - 3) l.

(** [l[-1]] *)
Definition index_last {A : Type} (l : list A) : result A :=
  match l with
  | [] => Raise IndexError
  | _ => index l (List.length l - 1)
  end.

(** [a, b, c = l] *)
Definition unpack3 {A : Type} (l : list A) : result (A * A * A) :=
  match l with
  | [a; b; c] => Ret (a, b, c)
  | _ => Raise ValueError
  end.

(** [_, poor, _, _, below_average, _, average, _, good, _, excellent = l]:
    the five names that are kept. *)
Definition unpack_ratings {A : Type} (l : list A)
  : result (A * A * A * A * A) :=
  match l with
  | [_; p; _; _; b; _; a; _; g; _; e] => Ret (p, b, a, g, e)
  | _ => Raise ValueError
  end.

(** The dictionary of lines 100-109: every value is a [str]. *)
Definition rating_record (mean stdev count p b a g e : string) : dict :=
  [("mean", PStr mean);
   ("std_deviation", PStr stdev);
   ("count", PStr count);
   ("poor", PStr p);
   ("below_average", PStr b);
   ("average", PStr a);
   ("good", PStr g);
   ("excellent", PStr e)].

Definition extract_data_from_page (table : list string)
  : result (option dict) :=
  if (List.length table =? 0)%nat then Ret None
  else
    t0 <- index table 0 ;;
    mismatch <- (if negb (String.eqb t0 LINE_TITLE) then Ret true
                 else t1 <- index table 1 ;;
                      Ret (negb (String.eqb t1 LINE_COLS))) ;;
    if (mismatch : bool) then Ret None
    else
      let table := skipn 2 table in
      l0 <- index table 0 ;;
      let line1 :=
        last3 (Str.split " " (Str.drop (String.length LINE_TITLE + 2) l0)) in
      msc <- unpack3 line1 ;;
      let '(mean, stdev, count) := msc in
      ll <- index_last table ;;
      rs <- unpack_ratings (Str.split " " ll) ;;
      let '(poor, below_average, average, good, excellent) := rs in
      Ret (Some (rating_record mean stdev count
                   (extract_paren poor) (extract_paren below_average)
                   (extract_paren average) (extract_paren good)
                   (extract_paren excellent))).

(** *** Line reconstruction *)

Module Word.
Record t : Type := mk { text : string; x : Q; y : Q }.
End Word.

(** A page is the list of its word elements, in document order
    ([page.findall('.//*')]). *)
Definition page : Type := list Word.t.

Definition Qlt_bool (a b : Q) : bool := negb (Qle_bool b a).

(** [(a.y, a.x) < (b.y, b.x)], the comparison of the sort keys: tuples
    are compared on their first components that differ. *)
Definition key_lt (a b : Word.t) : bool :=
  if Qeq_bool (Word.y a) (Word.y b)
  then Qlt_bool (Word.x a) (Word.x b)
  else Qlt_bool (Word.y a) (Word.y b).

(** [words.sort(key=...)]: Python's sort is stable, and the result of a
    stable sort is determined by the input; insertion from the right
    computes it. *)
Fixpoint insert_word (w : Word.t) (l : list Word.t) : list Word.t :=
  match l with
  | [] => [w]
  | v :: l' => if key_lt v w then v :: insert_word w l' else w :: v :: l'
  end.

Fixpoint sort_words (l : list Word.t) : list Word.t :=
  match l with
  | [] => []
  | w :: l' => insert_word w (sort_words l')
  end.

(** The [for word in words] loop, lines 41-47. *)
Fixpoint line_loop (last_y : Q) (line table : list string)
  (words : list Word.t) : list string :=
  match words with
  | [] => table ++ [Str.join " " line]
  | word :: rest =>
      if negb (Qeq_bool last_y (Word.y word))
      then line_loop (Word.y word) [Word.text word]
             (table ++ [Str.join " " line]) rest
      else line_loop last_y (line ++ [Word.text word]) table rest
  end.

(** Lines 49-50. *)
Definition drop_sentinel (table : list string) : list string :=
  match table with
  | l :: rest => if String.eqb l SENTINEL then rest else table
  | [] => table
  end.

Definition extract_page (p : page) : list string :=
  let words := sort_words p in
  match words with
  | [] => []
  | w0 :: _ => drop_sentinel (line_loop (Word.y w0) [] [] words)
  end.

(** *** The per-document loop of [parse_pdf_xml], lines 149-160

    The document is given as its pages ([pages_to_search]); reading the
    XML is left to the library. [frontpage.update(res)] on a [frontpage]
    that is [None] raises [AttributeError]. *)
Fixpoint pages_loop (idx : nat) (frontpage : option dict)
  (pages : list page) : result (option dict) :=
  match pages with
  | [] => Ret None
  | p :: rest =>
      let table := extract_page p in
      if (idx =? 0)%nat
      then fp <- extract_frontpage table ;; pages_loop (S idx) fp rest
      else
        res <- extract_data_from_page table ;;
        match res with
        | Some r =>
            match frontpage with
            | Some fp => Ret (Some (dict_update fp r))
            | None => Raise AttributeError
            end
        | None => pages_loop (S idx) frontpage rest
        end
  end.

Definition parse_pdf_xml (pages : list page) : result (option dict) :=
  pages_loop 0 None pages.

(** * Scenarios and notions used in the statements *)

Definition front_line_evals : string := "2020 Spring Evals - CS4XX-01 Jane Doe".

Definition front_line_cs : string := "2020 Spring CS4XX-01 Jane Doe".

(** A line with both ["Eval -"] and ["Evals -"]. *)
Definition front_line_both : string := "2020 Spring Evals - CS1 Eval - Jane Doe".

(** The front-page extraction as the specification words it: the names
    tried in the order ["Evals"], ["Eval"], ["Evaluation"]. *)
Definition extract_frontpage_spec_order : list string -> result (option dict) :=
  extract_frontpage_with ["Evals"; "Eval"; "Evaluation"].

(** What [extract_frontpage] does once [sep] has been chosen. *)
Definition split_at_separator (sep line : string) : result (option dict) :=
  ba <- unpack2 (Str.split sep line) ;; frontpage_fields (fst ba) (snd ba).

Definition rating_last_line : string :=
  "Poor (1) Below Average (2) Average (7) Good (7) Excellent (10)".

Definition rating_last_line_abc : string :=
  "Poor (abc) Below Average (2) Average (7) Good (7) Excellent (10)".

(** The title line of the scenario, with the three numbers on it. *)
Definition title_line_numbers : string :=
  "15 Taking everything into account, the instructor was: 4.10 0.95 25".

(** A third line whose first 56 characters are followed by the numbers. *)
Definition data_line : string :=
  "15 Taking everything into account, the instructor was:  4.10 0.95 25".

Definition scenario_page : list string :=
  [title_line_numbers; LINE_COLS; rating_last_line].

Definition rating_page : list string :=
  [LINE_TITLE; LINE_COLS; data_line; rating_last_line].

Definition rating_page_abc : list string :=
  [LINE_TITLE; LINE_COLS; data_line; rating_last_line_abc].

(** The record of the scenario as the specification has it, the five
    counts being integers. *)
Definition scenario_record_ints : dict :=
  [("mean", PStr "4.10"); ("std_deviation", PStr "0.95");
   ("count", PStr "25"); ("poor", PInt 1); ("below_average", PInt 2);
   ("average", PInt 7); ("good", PInt 7); ("excellent", PInt 10)].

Definition is_int (v : option pyval) : Prop := exists z, v = Some (PInt z).

Definition is_str (v : option pyval) : Prop := exists s, v = Some (PStr s).

(** An outcome as the specification wants it: a record or "no match",
    no exception. *)
Definition no_raise (r : result (option dict)) : Prop :=
  r = Ret None \/ exists d, r = Ret (Some d).

Definition front_outcome (r : result (option dict)) : Prop :=
  r = Ret None \/ r = Raise ValueError
  \/ exists c i y s, r = Ret (Some (front_record c i y s)).

Definition rating_outcome (r : result (option dict)) : Prop :=
  r = Ret None \/ r = Raise ValueError \/ r = Raise IndexError
  \/ exists m s c p b a g e, r = Ret (Some (rating_record m s c p b a g e)).

(** A rating page whose last line has two tokens. *)
Definition rating_page_short_last : list string :=
  [LINE_TITLE; LINE_COLS; data_line; "Poor (1)"].

(** A front page whose text before the separator is one word. *)
Definition front_page_no_semester : list string :=
  ["Instructor Report"; "2020 Evals - CS4XX-01 Jane Doe"].

(** The words of one line: [texts] from left to right at height [yy]. *)
Fixpoint place (yy : Q) (xx : Z) (texts : list string) : list Word.t :=
  match texts with
  | [] => []
  | t :: ts => Word.mk t (inject_Z xx) yy :: place yy (xx + 1) ts
  end.

Definition title_words : list string :=
  ["15"; "Taking"; "everything"; "into"; "account,"; "the"; "instructor";
   "was:"].

(** A page whose lines are the title, the header, a line with the three
    numbers and the rating line. *)
Definition rating_words : page :=
  place 1 0 title_words
  ++ place 2 0 ["Field"; "Mean"; "Std"; "Deviation"; "Count"]
  ++ place 3 0 (title_words ++ ["-"; "4.10"; "0.95"; "25"])
  ++ place 4 0 ["Poor"; "(1)"; "Below"; "Average"; "(2)"; "Average"; "(7)";
                "Good"; "(7)"; "Excellent"; "(10)"].

(** A front page: a heading and the line of the course. *)
Definition front_words : page :=
  place 2 0 ["2020"; "Spring"; "Evals"; "-"; "CS4XX-01"; "Jane"; "Doe"]
  ++ place 1 0 ["Instructor"; "Report"].

(** A document whose first page has no word, followed by a rating page. *)
Definition document_without_frontpage : list page := [[]; rating_words].

(** A front page, a page of no interest and a rating page. *)
Definition document_complete : list page :=
  [front_words; place 1 0 ["Comments"]; rating_words].

(** The text of a line made of the words [g]. *)
Definition line_text (g : list Word.t) : string :=
  Str.join " " (map Word.text g).

(** [line_loop] with the words of each line kept, instead of their
    texts. *)
Fixpoint chunk (last_y : Q) (cur : list Word.t) (words : list Word.t)
  : list (list Word.t) :=
  match words with
  | [] => [cur]
  | word :: rest =>
      if negb (Qeq_bool last_y (Word.y word))
      then cur :: chunk (Word.y word) [word] rest
      else chunk last_y (cur ++ [word]) rest
  end.

(** The order of the sort keys [(y, x)]. *)
Definition key_le (a b : Word.t) : Prop :=
  Word.y a < Word.y b \/ (Word.y a == Word.y b /\ Word.x a <= Word.x b).

Definition x_le (a b : Word.t) : Prop := Word.x a <= Word.x b.

(** Every word of [g1] is above every word of [g2]. *)
Definition group_lt (g1 g2 : list Word.t) : Prop :=
  forall a b, In a g1 -> In b g2 -> Word.y a < Word.y b.

(** [a] and [b] have equal sort keys. *)
Definition same_key (a b : Word.t) : bool :=
  Qeq_bool (Word.y a) (Word.y b) && Qeq_bool (Word.x a) (Word.x b).

(** The words of the page at height [c], in document order. *)
Definition words_at (c : Q) (p : page) : list Word.t :=
  filter (fun w => Qeq_bool (Word.y w) c) p.

(** * calculate.py and the summary of desktop_ui.py

    The exceptions of this part are its own: [KeyError] for a missing
    key, [ValueError] for a string [int()] refuses, [ZeroDivisionError]
    and [OverflowError] for a true division. A true division [a / b] of
    integers that succeeds is modelled by the rational [a / b], of which
    Python returns the nearest double. *)

Module Calculate.

Inductive exn : Type :=
| KeyError (key : string)
| ValueError
| ZeroDivisionError
| OverflowError.

Inductive res (A : Type) : Type :=
| Ok (a : A)
| Err (e : exn).

Arguments Ok {A} a.
Arguments Err {A} e.

Definition bind {A B : Type} (m : res A) (k : A -> res B) : res B :=
  match m with
  | Ok a => k a
  | Err e => Err e
  end.

Notation "x <-- m ;; k" := (bind m (fun x => k))
  (at level 61, m at next level, right associativity).

(** [d[k]] *)
Definition getitem (d : dict) (k : string) : res pyval :=
  match dict_get d k with
  | Some v => Ok v
  | None => Err (KeyError k)
  end.

(** The white space [int()] skips at both ends of a string. *)
Definition int_space (c : ascii) : bool :=
  let n := nat_of_ascii c in
  ((9 <=? n) && (n <=? 13) || (n =? 32) || (n =? 133) || (n =? 160))%nat.

Fixpoint lskip (s : string) : string :=
  match s with
  | EmptyString => EmptyString
  | String c s' => if int_space c then lskip s' else s
  end.

Fixpoint rskip (s : string) : string :=
  match s with
  | EmptyString => EmptyString
  | String c s' =>
      match rskip s' with
      | EmptyString => if int_space c then EmptyString else String c EmptyString
      | r => String c r
      end
  end.

Definition digit_val (c : ascii) : option Z :=
  let n := nat_of_ascii c in
  if ((48 <=? n) && (n <=? 57))%nat then Some (Z.of_nat n - 48)%Z else None.

(** Decimal digits, with single underscores between digits allowed;
    [prev] tells whether the character before was a digit. *)
Fixpoint digits (acc : Z) (prev : bool) (s : string) : option Z :=
  match s with
  | EmptyString => if prev then Some acc else None
  | String c s' =>
      match digit_val c with
      | Some d => digits (10 * acc + d) true s'
      | None =>
          if Ascii.eqb c "_" && prev then digits acc false s' else None
      end
  end.

(** The number of decimal digits among the characters of [s]. *)
Fixpoint count_digits (s : string) : Z :=
  match s with
  | EmptyString => 0
  | String c s' =>
      match digit_val c with
      | Some _ => 1 + count_digits s'
      | None => count_digits s'
      end
  end.

(** [sys.int_info.default_max_str_digits]: the interpreter refuses to
    convert a string with more digits. *)
Definition MAX_STR_DIGITS : Z := 4300.

(** [int(s)] for a string: white space, an optional sign, digits, and
    no more than [MAX_STR_DIGITS] of them. *)
Definition int_of_string (s : string) : res Z :=
  let t := rskip (lskip s) in
  let r :=
    match t with
    | String "+" u => digits 0 false u
    | String "-" u => option_map Z.opp (digits 0 false u)
    | _ => digits 0 false t
    end in
  match r with
  | Some z =>
      if (MAX_STR_DIGITS <? count_digits t)%Z then Err ValueError else Ok z
  | None => Err ValueError
  end.

(** [int(v)] *)
Definition int_of (v : pyval) : res Z :=
  match v with
  | PInt z => Ok z
  | PStr s => int_of_string s
  end.

(** [int(data[k])] *)
Definition int_field (data : dict) (k : string) : res Z :=
  v <-- getitem data k ;; int_of v.

Definition from_dict (data : dict) : res Rating :=
  p <-- int_field data "poor" ;;
  b <-- int_field data "below_average" ;;
  a <-- int_field data "average" ;;
  g <-- int_field data "good" ;;
  e <-- int_field data "excellent" ;;
  Ok (mkRating p b a g e).

(** The least magnitude that rounds beyond the largest double:
    [2^1024 - 2^970], half a unit in the last place above it. *)
Definition DBL_OVERFLOW : Z := 2 ^ 1024 - 2 ^ 970.

(** [a / b] on integers: the quotient is rounded to the nearest double,
    and a quotient that rounds beyond the largest double is refused. *)
Definition truediv (a b : Z) : res Q :=
  if (b =? 0)%Z then Err ZeroDivisionError
  else if (DBL_OVERFLOW * Z.abs b <=? Z.abs a)%Z then Err OverflowError
  else Ok (inject_Z a / inject_Z b).

Definition get_top1 (self : Rating) : res Q :=
  truediv (100 * excellent self) (RatingOps.get_count self).

Definition get_top2 (self : Rating) : res Q :=
  truediv (100 * (excellent self + good self)) (RatingOps.get_count self).

Definition get_mean (self : Rating) : res Q :=
  truediv (1 * poor self + 2 * below_average self + 3 * average self
           + 4 * good self + 5 * excellent self)
          (RatingOps.get_count self).

(** [total = Rating.zero()] followed by [total = total.add(r)] for each
    rating. *)
Definition accumulate (ratings : list Rating) : Rating :=
  fold_left RatingOps.add ratings RatingOps.zero.

(** [[Rating.from_dict(x) for x in rows]] *)
Fixpoint ratings_of (rows : list dict) : res (list Rating) :=
  match rows with
  | [] => Ok []
  | x :: rest =>
      r <-- from_dict x ;;
      rs <-- ratings_of rest ;;
      Ok (r :: rs)
  end.

(** The three numbers of a summary: Top1, Top2, Mean. *)
Definition summary_of (total : Rating) : res (Q * Q * Q) :=
  t1 <-- get_top1 total ;;
  t2 <-- get_top2 total ;;
  m <-- get_mean total ;;
  Ok (t1, t2, m).

(** [_compute_summary] of desktop_ui.py; the dictionary it returns is
    given by its three values. *)
Definition _compute_summary (extracted_rows : list dict)
  : res (option (Q * Q * Q)) :=
  ratings <-- ratings_of extracted_rows ;;
  match ratings with
  | [] => Ok None
  | _ => s <-- summary_of (accumulate ratings) ;; Ok (Some s)
  end.

(** The loop of [main], lines 60-66: the running total and the sum of
    the [count] fields. *)
Fixpoint main_loop (data : list dict) (total : Rating) (count : Z)
  : res (Rating * Z) :=
  match data with
  | [] => Ok (total, count)
  | line :: rest =>
      rating <-- from_dict line ;;
      c <-- int_field line "count" ;;
      main_loop rest (RatingOps.add total rating) (count + c)
  end.

(** [main] of calculate.py on the list read from the file: the three
    numbers it prints, before their formatting. *)
Definition main (data : list dict) : res (Q * Q * Q) :=
  tc <-- main_loop data RatingOps.zero 0 ;;
  let '(total, count) := tc in
  _ <-- truediv (excellent total) count ;;
  _ <-- truediv (excellent total + good total) count ;;
  summary_of total.

End Calculate.

(** * Notions used in the further properties *)

(** ["(n)"], with [n] written in decimal as [str(n)] writes it. *)
Definition show_nat (n : nat) : string :=
  NilZero.string_of_uint (Nat.to_uint n).

Definition paren (n : nat) : string := ("(" ++ show_nat n ++ ")")%string.

(** [n] is written with no more digits than [int()] accepts. *)
Definition fits (n : nat) : Prop :=
  (Z.of_nat (String.length (show_nat n)) <= Calculate.MAX_STR_DIGITS)%Z.

(** A rating line with the five counts. *)
Definition rating_line_of (n1 n2 n3 n4 n5 : nat) : string :=
  Str.join " " ["Poor"; paren n1; "Below"; "Average"; paren n2; "Average";
                paren n3; "Good"; paren n4; "Excellent"; paren n5].

(** The sum of [f] over a list. *)
Definition sumZ {A : Type} (f : A -> Z) (l : list A) : Z :=
  fold_right (fun x acc => (f x + acc)%Z) 0%Z l.

(** The five counts are not negative. *)
Definition nonneg (r : Rating) : Prop :=
  (0 <= poor r /\ 0 <= below_average r /\ 0 <= average r
   /\ 0 <= good r /\ 0 <= excellent r)%Z.

(** No character of [s] is a space. *)
Fixpoint no_space (s : string) : bool :=
  match s with
  | EmptyString => true
  | String c s' => negb (Ascii.eqb c " ") && no_space s'
  end.

(** The separator [extract_frontpage] splits at: the first of the three
    that occurs in the line. *)
Definition chosen_separator (line : string) : option string :=
  find (fun sep => Str.contains sep line) ["Eval -"; "Evals -"; "Evaluation -"].

(** [s] ends with the character [c]. *)
Fixpoint ends_with (c : ascii) (s : string) : bool :=
  match s with
  | EmptyString => false
  | String d EmptyString => Ascii.eqb d c
  | String _ s' => ends_with c s'
  end.

(** No two words of the page have the same position. *)
Definition distinct_positions (p : page) : Prop :=
  ForallOrdPairs (fun a b => same_key a b = false) p.

(** The page does not match the rating table. *)
Definition no_match (p : page) : Prop :=
  extract_data_from_page (extract_page p) = Ret None.

(** The outcomes of the pages after the first, up to the first that is
    not "no match". *)
Fixpoint first_outcome (pages : list page) : result (option dict) :=
  match pages with
  | [] => Ret None
  | p :: rest =>
      match extract_data_from_page (extract_page p) with
      | Ret None => first_outcome rest
      | o => o
      end
  end.

(** * Properties *)

(** ** Strings *)

Section StringFacts.

Lemma prefix_drop (p s : string) :
  prefix p s = true -> s = (p ++ Str.drop (String.length p) s)%string.
Proof.
  revert s; induction p as [|c p IH]; intros [|d s] H; simpl in *;
    try reflexivity; try discriminate.
  destruct (ascii_dec c d) as [->|]; [|discriminate].
  f_equal. now apply IH.
Qed.

Lemma prefix_app (p s : string) : prefix p (p ++ s) = true.
Proof.
  induction p as [|c p IH]; simpl.
  - now destruct s.
  - destruct (ascii_dec c c); [assumption|congruence].
Qed.

Lemma drop_app_length (p s : string) :
  Str.drop (String.length p) (p ++ s) = s.
Proof. induction p; simpl; auto. Qed.

Lemma length_app (a b : string) :
  String.length (a ++ b) = (String.length a + String.length b)%nat.
Proof. induction a; simpl; auto. Qed.

(** [cut] splits at an occurrence of the separator... *)
Lemma cut_unfold (sep s : string) :
  Str.cut sep s =
  if prefix sep s then Some (EmptyString, Str.drop (String.length sep) s)
  else
    match s with
    | EmptyString => None
    | String c s' =>
        match Str.cut sep s' with
        | Some (b, a) => Some (String c b, a)
        | None => None
        end
    end.
Proof. destruct s; reflexivity. Qed.

Lemma cut_Some (sep s b a : string) :
  Str.cut sep s = Some (b, a) -> s = (b ++ sep ++ a)%string.
Proof.
  revert b; induction s as [|c s IH]; intros b; rewrite cut_unfold;
    destruct (prefix sep _) eqn:P;
    try (intros [= <- <-]; now apply prefix_drop); try discriminate.
  destruct (Str.cut sep s) as [[b0 a0]|]; [|discriminate].
  intros [= <- <-]. simpl. f_equal. now apply IH.
Qed.

(** ... and at the leftmost one. *)
Lemma cut_leftmost (sep s b a : string) :
  Str.cut sep s = Some (b, a) ->
  forall b' a', s = (b' ++ sep ++ a')%string ->
                (String.length b <= String.length b')%nat.
Proof.
  revert b; induction s as [|c s IH]; intros b; rewrite cut_unfold;
    destruct (prefix sep _) eqn:P;
    try (intros [= <- <-] b' a' _; simpl; lia); try discriminate.
  destruct (Str.cut sep s) as [[b0 a0]|] eqn:C; [|discriminate].
  intros [= <- <-] b' a' E.
  destruct b' as [|d b'].
  - simpl in E. rewrite E, prefix_app in P. discriminate.
  - simpl in E. injection E as -> E. simpl.
    specialize (IH b0 eq_refl b' a' E). lia.
Qed.

Lemma cut_None (sep b a : string) : Str.cut sep (b ++ sep ++ a) <> None.
Proof.
  induction b as [|c b IH]; rewrite cut_unfold.
  - simpl. rewrite prefix_app. discriminate.
  - destruct (prefix sep _); [discriminate|]. simpl.
    destruct (Str.cut sep (b ++ sep ++ a)) as [[? ?]|]; [discriminate|].
    contradiction.
Qed.

(** [sub in s] holds exactly when [s] has an occurrence of [sub]. *)
Lemma contains_iff (sub s : string) :
  Str.contains sub s = true <-> exists b a, s = (b ++ sub ++ a)%string.
Proof.
  unfold Str.contains. split.
  - destruct (Str.cut sub s) as [[b a]|] eqn:C; [|discriminate].
    intros _. exists b, a. now apply cut_Some.
  - intros (b & a & ->).
    destruct (Str.cut sub (b ++ sub ++ a)) eqn:C; [reflexivity|].
    now apply cut_None in C.
Qed.

Lemma cut_length (sep s b a : string) :
  Str.cut sep s = Some (b, a) ->
  String.length s = (String.length b + String.length sep + String.length a)%nat.
Proof.
  intros H. apply cut_Some in H. subst s.
  rewrite !length_app. lia.
Qed.

(** The bound on the number of cuts in [Str.split] loses nothing: any
    larger bound gives the same list. *)
Lemma splitn_enough (sep s : string) (n : nat) :
  sep <> EmptyString -> (String.length s <= n)%nat ->
  Str.splitn n sep s = Str.split sep s.
Proof.
  intros Hsep. unfold Str.split.
  assert (G : forall n m s, (String.length s <= n)%nat ->
                            (String.length s <= m)%nat ->
                            Str.splitn n sep s = Str.splitn m sep s).
  { clear n s. induction n as [|n IH]; intros [|m] s Hn Hm; simpl; auto.
    - destruct s; [|simpl in Hn; lia].
      destruct sep; [congruence|reflexivity].
    - destruct s; [|simpl in Hm; lia].
      destruct sep; [congruence|reflexivity].
    - destruct (Str.cut sep s) as [[b a]|] eqn:C; [|reflexivity].
      f_equal. apply cut_length in C.
      assert (0 < String.length sep)%nat
        by (destruct sep; [congruence|simpl; lia]).
      apply IH; lia. }
  intros H. apply G; [assumption|lia].
Qed.

End StringFacts.

Lemma nth_error_1_length {A : Type} (l : list A) (a : A) :
  nth_error l 1 = Some a -> (List.length l <? 2)%nat = false.
Proof.
  destruct l as [|? [|? ?]]; simpl; try discriminate. reflexivity.
Qed.

Lemma extract_frontpage_with_line (names table : list string) (line : string) :
  nth_error table 1 = Some line ->
  extract_frontpage_with names table = frontpage_of_line names line.
Proof.
  intros H. unfold extract_frontpage_with, index.
  now rewrite (nth_error_1_length _ _ H), H.
Qed.

(** ** Rating aggregation *)

(** C9: [Rating.add], the componentwise sum of the five counts, is
    associative and commutative. *)
Theorem add_assoc_comm (a b c : Rating) :
  RatingOps.add (RatingOps.add a b) c = RatingOps.add a (RatingOps.add b c)
  /\ RatingOps.add a b = RatingOps.add b a.
Proof.
  destruct a, b, c; unfold RatingOps.add; simpl.
  split; f_equal; lia.
Qed.

(** ** Front page *)

(** C7: whenever the second line of the page is
    ["2020 Spring Evals - CS4XX-01 Jane Doe"], [extract_frontpage] returns
    course ["CS4XX-01"], instructor ["Jane Doe"], year ["2020"] and
    semester ["Spring"]. *)
Theorem extract_frontpage_evals_line (table : list string) :
  nth_error table 1 = Some front_line_evals ->
  extract_frontpage table
  = Ret (Some (front_record "CS4XX-01" "Jane Doe" "2020" "Spring")).
Proof.
  intros H. unfold extract_frontpage.
  rewrite (extract_frontpage_with_line _ _ _ H). reflexivity.
Qed.

Lemma extract_frontpage_evals_line_witness :
  extract_frontpage ["Instructor Report"; front_line_evals]
  = Ret (Some (front_record "CS4XX-01" "Jane Doe" "2020" "Spring")).
Proof.
  apply (extract_frontpage_evals_line ["Instructor Report"; front_line_evals]).
  reflexivity.
Defined.

Lemma append_nil_r_s (a : string) : (a ++ "")%string = a.
Proof. induction a; simpl; congruence. Qed.

Lemma append_assoc_l (a b c : string) :
  ((a ++ b) ++ c = a ++ b ++ c)%string.
Proof. induction a; simpl; congruence. Qed.

Lemma append_cut (u v u' v' : string) :
  (u ++ v = u' ++ v')%string ->
  (String.length u <= String.length u')%nat ->
  exists x, u' = (u ++ x)%string /\ v = (x ++ v')%string.
Proof.
  revert u'. induction u as [|c u IH]; intros u' E L.
  - exists u'. now split.
  - destruct u' as [|d u']; [simpl in L; lia|].
    simpl in E. injection E as -> E. simpl in L.
    destruct (IH u' E) as (x & -> & ->); [lia|].
    now exists x.
Qed.

(** The cut at ["CS"] falls where the text before holds no ["CS"], not
    even one that ends on the ["C"] of the separator. *)
Lemma cut_CS (before after : string) :
  Str.contains "CS" (before ++ "C") = false ->
  Str.cut "CS" (before ++ "CS" ++ after) = Some (before, after).
Proof.
  intros N.
  destruct (Str.cut "CS" (before ++ "CS" ++ after)) as [[b0 a0]|] eqn:C;
    [|now apply cut_None in C].
  pose proof (cut_Some _ _ _ _ C) as E.
  pose proof (cut_leftmost _ _ _ _ C before after eq_refl) as L.
  symmetry in E. destruct (append_cut _ _ _ _ E L) as (x & Eb & Ea).
  destruct x as [|c x].
  - rewrite append_nil_r_s in Eb. subst before.
    simpl in Ea. injection Ea as ->. reflexivity.
  - exfalso. simpl in Ea. injection Ea as <- Ea.
    destruct x as [|d x]; [discriminate Ea|].
    simpl in Ea. injection Ea as <- Ea.
    assert (K : Str.contains "CS" (before ++ "C") = true).
    { apply contains_iff. exists b0, (x ++ "C")%string.
      subst before. now rewrite !append_assoc_l. }
    congruence.
Qed.

(** The cut at a character falls where the text before does not hold
    it. *)
Lemma cut_char (c : ascii) (b a : string) :
  Str.contains (String c "") b = false ->
  Str.cut (String c "") (b ++ String c "" ++ a) = Some (b, a).
Proof.
  intros N.
  destruct (Str.cut (String c "") (b ++ String c "" ++ a))
    as [[b0 a0]|] eqn:C; [|now apply cut_None in C].
  pose proof (cut_Some _ _ _ _ C) as E.
  pose proof (cut_leftmost _ _ _ _ C b a eq_refl) as L.
  symmetry in E. destruct (append_cut _ _ _ _ E L) as (x & Eb & Ea).
  destruct x as [|d x].
  - rewrite append_nil_r_s in Eb. subst b.
    simpl in Ea. injection Ea as ->. reflexivity.
  - exfalso. simpl in Ea. injection Ea as <- Ea.
    assert (K : Str.contains (String c "") b = true).
    { apply contains_iff. exists b0, x. now subst b. }
    congruence.
Qed.

Lemma split_space_once (w rest : string) :
  no_space w = true ->
  unpack2 (Str.splitn 1 " " (w ++ " " ++ rest)) = Ret (w, rest).
Proof.
  intros N. cbn [Str.splitn].
  assert (C : Str.cut " " (w ++ " " ++ rest) = Some (w, rest)).
  { revert N. induction w as [|c w IH]; intros N.
    - rewrite cut_unfold.
      assert (P : prefix " " ("" ++ " " ++ rest) = true)
        by apply (prefix_app " " rest).
      now rewrite P.
    - cbn [no_space] in N. apply andb_true_iff in N. destruct N as [Hc Hw].
      change (String c w ++ " " ++ rest)%string
        with (String c (w ++ " " ++ rest)).
      rewrite cut_unfold.
      assert (P : prefix " " (String c (w ++ " " ++ rest)) = false).
      { cbn [prefix]. destruct (ascii_dec " " c) as [<-|]; [discriminate|].
        reflexivity. }
      now rewrite P, (IH Hw). }
  now rewrite C.
Qed.

Lemma split_paren_once (x rest : string) :
  Str.contains ")" x = false -> Str.contains ")" rest = false ->
  unpack2 (Str.split ")" (x ++ ")" ++ rest)) = Ret (x, rest).
Proof.
  intros Nx Nr. unfold Str.split.
  destruct (String.length (x ++ ")" ++ rest)) as [|k] eqn:L.
  - rewrite length_app in L. simpl in L. lia.
  - cbn [Str.splitn]. rewrite (cut_char ")" x rest Nx).
    destruct k; cbn [Str.splitn]; [reflexivity|].
    unfold Str.contains in Nr.
    destruct (Str.cut ")" rest); [discriminate|reflexivity].
Qed.

(** C10: when the second line holds none of ["Eval -"], ["Evals -"],
    ["Evaluation -"] but holds ["CS"], it is split at the leftmost
    ["CS"], which belongs to neither part: with [before] the text
    before that ["CS"] and [after] the text strictly after it, the
    result is built from [before] and [after] alone, and the course of
    the record is taken from [after]: its first word when [after] has
    no closing parenthesis, its text up to the closing parenthesis when
    it has one. The course has lost its ["CS"]. *)
Theorem extract_frontpage_cs_fallback (table : list string)
  (line before after : string) :
  nth_error table 1 = Some line ->
  Str.contains "Eval -" line = false ->
  Str.contains "Evals -" line = false ->
  Str.contains "Evaluation -" line = false ->
  line = (before ++ "CS" ++ after)%string ->
  Str.contains "CS" (before ++ "C") = false ->
  extract_frontpage table = frontpage_fields before after
  /\ (forall year semester course instructor,
        Str.strip before = (year ++ " " ++ semester)%string ->
        no_space year = true ->
        Str.contains ")" after = false ->
        Str.strip after = (course ++ " " ++ instructor)%string ->
        no_space course = true ->
        extract_frontpage table
        = Ret (Some (front_record course instructor year semester)))
  /\ (forall year semester x rest,
        Str.strip before = (year ++ " " ++ semester)%string ->
        no_space year = true ->
        after = (x ++ ")" ++ rest)%string ->
        Str.contains ")" x = false ->
        Str.contains ")" rest = false ->
        extract_frontpage table
        = Ret (Some (front_record (x ++ ")") (Str.strip rest) year semester))).
Proof.
  intros H E1 E2 E3 EL N.
  assert (R : extract_frontpage table = frontpage_fields before after).
  { unfold extract_frontpage.
    rewrite (extract_frontpage_with_line _ _ _ H).
    unfold frontpage_of_line. simpl split_on_names.
    rewrite E1, E2, E3. cbn [bind].
    assert (CS : Str.contains "CS" line = true)
      by (apply contains_iff; now exists before, after).
    rewrite CS. cbn [Str.splitn]. rewrite EL, (cut_CS _ _ N). reflexivity. }
  split; [exact R|]. rewrite R. unfold frontpage_fields. split.
  - intros year semester course instructor Eb Ny Np Ea Nc.
    rewrite Eb, (split_space_once _ _ Ny). cbn [bind].
    rewrite Np, Ea, (split_space_once _ _ Nc). reflexivity.
  - intros year semester x rest Eb Ny Ea Nx Nr.
    rewrite Eb, (split_space_once _ _ Ny). cbn [bind].
    assert (P : Str.contains ")" after = true)
      by (apply contains_iff; now exists x, rest).
    rewrite P, Ea, (split_paren_once _ _ Nx Nr). reflexivity.
Qed.

Lemma extract_frontpage_cs_fallback_witness :
  extract_frontpage ["Instructor Report"; front_line_cs]
  = Ret (Some (front_record "4XX-01" "Jane Doe" "2020" "Spring")).
Proof.
  destruct (extract_frontpage_cs_fallback
              ["Instructor Report"; front_line_cs] front_line_cs
              "2020 Spring " "4XX-01 Jane Doe"
              eq_refl eq_refl eq_refl eq_refl eq_refl eq_refl)
    as (_ & H & _).
  apply (H "2020" "Spring" "4XX-01" "Jane Doe"); reflexivity.
Defined.

(** The two paths on the same course: the fallback drops the ["CS"] that
    the separator path keeps. *)
Example extract_frontpage_cs_example :
  extract_frontpage ["Instructor Report"; front_line_cs]
  = Ret (Some (front_record "4XX-01" "Jane Doe" "2020" "Spring"))
  /\ extract_frontpage ["Instructor Report"; front_line_evals]
     = Ret (Some (front_record "CS4XX-01" "Jane Doe" "2020" "Spring")).
Proof. split; reflexivity. Qed.

(** C6 fails as stated: on a line with both ["Eval -"] and ["Evals -"] the
    code splits at ["Eval -"], the order of the specification would split
    at ["Evals -"]. *)
Lemma separator_order_counterexample :
  extract_frontpage ["Instructor Report"; front_line_both]
  = Ret (Some (front_record "Jane" "Doe" "2020" "Spring Evals - CS1"))
  /\ extract_frontpage_spec_order ["Instructor Report"; front_line_both]
     = Ret (Some (front_record "CS1" "Eval - Jane Doe" "2020" "Spring"))
  /\ ~ (forall table,
          extract_frontpage table = extract_frontpage_spec_order table).
Proof.
  split; [reflexivity|]. split; [reflexivity|].
  intros H. specialize (H ["Instructor Report"; front_line_both]).
  discriminate H.
Qed.

(** C6, amended: the separators are tried in the order ["Eval -"],
    ["Evals -"], ["Evaluation -"], and the first of them, in that order,
    that occurs in the second line is the one the line is split at. *)
Theorem separator_order (table : list string) (line : string) :
  nth_error table 1 = Some line ->
  (Str.contains "Eval -" line = true ->
   extract_frontpage table = split_at_separator "Eval -" line)
  /\ (Str.contains "Eval -" line = false ->
      Str.contains "Evals -" line = true ->
      extract_frontpage table = split_at_separator "Evals -" line)
  /\ (Str.contains "Eval -" line = false ->
      Str.contains "Evals -" line = false ->
      Str.contains "Evaluation -" line = true ->
      extract_frontpage table = split_at_separator "Evaluation -" line).
Proof.
  intros H. unfold extract_frontpage.
  rewrite (extract_frontpage_with_line _ _ _ H).
  unfold frontpage_of_line, split_at_separator. simpl split_on_names.
  repeat split; intros;
    repeat match goal with E : Str.contains _ _ = _ |- _ => rewrite E; clear E end;
    match goal with
    | |- context [unpack2 ?l] => destruct l as [|? [|? [|? ?]]]; reflexivity
    end.
Qed.

Lemma separator_order_witness :
  extract_frontpage ["Instructor Report"; front_line_both]
  = split_at_separator "Eval -" front_line_both.
Proof.
  destruct (separator_order ["Instructor Report"; front_line_both]
              front_line_both eq_refl) as (H & _ & _).
  apply H. reflexivity.
Defined.

(** ** Rating table *)

Lemma index_last_cons {A : Type} (a : A) (l : list A) (d : A) :
  index_last (a :: l) = Ret (last (a :: l) d).
Proof.
  unfold index_last, index.
  replace (List.length (a :: l) - 1)%nat with (List.length l) by (simpl; lia).
  revert a; induction l as [|b l IH]; intros a; [reflexivity|].
  simpl nth_error. rewrite (IH b). reflexivity.
Qed.

(** Past the two guards: what a page with the title, the header and a
    third line gives. *)
Lemma extract_data_from_page_matched (l0 : string) (rest : list string) :
  extract_data_from_page (LINE_TITLE :: LINE_COLS :: l0 :: rest)
  = (msc <- unpack3 (last3 (Str.split " " (Str.drop 56 l0))) ;;
     rs <- unpack_ratings (Str.split " " (last (l0 :: rest) "")) ;;
     let '(mean, stdev, count) := msc in
     let '(p, b, a, g, e) := rs in
     Ret (Some (rating_record mean stdev count
                  (extract_paren p) (extract_paren b) (extract_paren a)
                  (extract_paren g) (extract_paren e)))).
Proof.
  unfold extract_data_from_page.
  change (skipn 2 (LINE_TITLE :: LINE_COLS :: l0 :: rest)) with (l0 :: rest).
  rewrite (index_last_cons l0 rest "").
  change (String.length LINE_TITLE + 2)%nat with 56%nat.
  cbn [List.length Nat.eqb index nth_error bind negb].
  change (String.eqb LINE_TITLE LINE_TITLE) with true.
  change (String.eqb LINE_COLS LINE_COLS) with true.
  cbn [negb bind index nth_error].
  destruct (unpack3 _) as [[[m s] c]|]; [|reflexivity].
  cbn [bind]. destruct (unpack_ratings _) as [[[[[p b] a] g] e]|]; reflexivity.
Qed.

(** A page that passes both guards starts with the title and the header. *)
Lemma extract_data_from_page_Some (table : list string) (r : dict) :
  extract_data_from_page table = Ret (Some r) ->
  exists l0 rest, table = LINE_TITLE :: LINE_COLS :: l0 :: rest.
Proof.
  unfold extract_data_from_page.
  destruct table as [|t0 [|t1 [|l0 rest]]]; cbn [List.length Nat.eqb index nth_error bind].
  - discriminate.
  - destruct (String.eqb t0 LINE_TITLE); cbn; discriminate.
  - destruct (String.eqb t0 LINE_TITLE); cbn; [|discriminate].
    destruct (String.eqb t1 LINE_COLS); cbn; discriminate.
  - destruct (String.eqb_spec t0 LINE_TITLE) as [->|]; cbn [negb bind];
      [|discriminate].
    destruct (String.eqb_spec t1 LINE_COLS) as [->|]; cbn [negb bind];
      [|discriminate].
    intros _. now exists l0, rest.
Qed.

(** C1 fails as stated: on the three-line page of the scenario the first
    line is not the bare title, so the first guard returns [None]; and
    the record of the scenario, with integer counts, is not returned. *)
Lemma rating_scenario_counterexample :
  extract_data_from_page scenario_page = Ret None
  /\ extract_data_from_page scenario_page <> Ret (Some scenario_record_ints).
Proof. split; [reflexivity|discriminate]. Qed.

(** C1, amended: a page that starts with the bare title and the header,
    whose third line has the numbers 4.10 0.95 25 after its first 56
    characters and whose last line is the rating line of the scenario,
    gives the record of the scenario with the five counts as the strings
    "1", "2", "7", "7", "10". *)
Theorem rating_scenario (pre : string) (mid : list string) :
  String.length pre = 56%nat ->
  extract_data_from_page
    ([LINE_TITLE; LINE_COLS; (pre ++ "4.10 0.95 25")%string]
       ++ mid ++ [rating_last_line])
  = Ret (Some (rating_record "4.10" "0.95" "25" "1" "2" "7" "7" "10")).
Proof.
  intros H. cbn [app].
  rewrite extract_data_from_page_matched.
  rewrite <- H, drop_app_length.
  rewrite app_comm_cons, last_last.
  reflexivity.
Qed.

Lemma rating_scenario_witness :
  extract_data_from_page rating_page
  = Ret (Some (rating_record "4.10" "0.95" "25" "1" "2" "7" "7" "10")).
Proof.
  apply (rating_scenario
           "15 Taking everything into account, the instructor was:  " []).
  reflexivity.
Defined.

(** With the title line of the scenario as third line, the 56 characters
    that are skipped take the first digit of the mean with them. *)
Example rating_scenario_title_as_third_line :
  extract_data_from_page
    [LINE_TITLE; LINE_COLS; title_line_numbers; rating_last_line]
  = Ret (Some (rating_record ".10" "0.95" "25" "1" "2" "7" "7" "10")).
Proof. reflexivity. Qed.

(** C2 fails as stated: the extraction succeeds on [rating_page] and the
    five counts of its record are strings, not integers. *)
Lemma rating_fields_counterexample :
  exists r, extract_data_from_page rating_page = Ret (Some r)
            /\ ~ is_int (dict_get r "poor")
            /\ ~ is_int (dict_get r "below_average")
            /\ ~ is_int (dict_get r "average")
            /\ ~ is_int (dict_get r "good")
            /\ ~ is_int (dict_get r "excellent").
Proof.
  eexists. split; [reflexivity|].
  repeat split; intros [z Hz]; discriminate Hz.
Qed.

(** C2, amended: when the extraction succeeds, the last line splits on
    single spaces into 11 tokens, and poor, below_average, average, good,
    excellent are the strings left of the tokens 1, 4, 6, 8, 10 once
    their first and last characters are removed; nothing is parsed as an
    integer; mean, std_deviation and count are strings too. *)
Theorem rating_fields (table : list string) (r : dict) :
  extract_data_from_page table = Ret (Some r) ->
  let toks := Str.split " " (last table "") in
  List.length toks = 11%nat
  /\ dict_get r "poor" = Some (PStr (extract_paren (nth 1 toks "")))
  /\ dict_get r "below_average" = Some (PStr (extract_paren (nth 4 toks "")))
  /\ dict_get r "average" = Some (PStr (extract_paren (nth 6 toks "")))
  /\ dict_get r "good" = Some (PStr (extract_paren (nth 8 toks "")))
  /\ dict_get r "excellent" = Some (PStr (extract_paren (nth 10 toks "")))
  /\ is_str (dict_get r "mean")
  /\ is_str (dict_get r "std_deviation")
  /\ is_str (dict_get r "count").
Proof.
  intros H. destruct (extract_data_from_page_Some _ _ H) as (l0 & rest & ->).
  rewrite extract_data_from_page_matched in H.
  change (last (LINE_TITLE :: LINE_COLS :: l0 :: rest) "")
    with (last (l0 :: rest) "").
  destruct (unpack3 _) as [[[m s] c]|]; [|discriminate].
  cbn [bind] in H.
  destruct (Str.split " " (last (l0 :: rest) ""))
    as [|t0 [|t1 [|t2 [|t3 [|t4 [|t5 [|t6 [|t7 [|t8 [|t9 [|t10 [|t11 ts]]]]]]]]]]]];
    try discriminate.
  cbn in H. injection H as <-. cbn.
  repeat split; eexists; reflexivity.
Qed.

Lemma rating_fields_witness :
  dict_get (rating_record "4.10" "0.95" "25" "1" "2" "7" "7" "10") "poor"
  = Some (PStr (extract_paren "(1)")).
Proof.
  apply (rating_fields rating_page
           (rating_record "4.10" "0.95" "25" "1" "2" "7" "7" "10")).
  reflexivity.
Defined.

(** C3 fails as stated: with ["(abc)"] as first count the extraction
    does not give "no match"; it returns a record whose [poor] is the
    string ["abc"]. *)
Lemma malformed_count_counterexample :
  extract_data_from_page rating_page_abc
  = Ret (Some (rating_record "4.10" "0.95" "25" "abc" "2" "7" "7" "10"))
  /\ extract_data_from_page rating_page_abc <> Ret None.
Proof. split; [reflexivity|discriminate]. Qed.

(** C3, amended: on a page that starts with the title and the header,
    whose third line leaves three tokens and whose last line has 11
    tokens, the extraction succeeds whatever stands between the
    parentheses: the counts are the tokens 1, 4, 6, 8, 10 without their
    first and last characters, and no token is checked to be an integer. *)
Theorem malformed_count_kept (l0 : string) (rest : list string)
  (m s c t0 t1 t2 t3 t4 t5 t6 t7 t8 t9 t10 : string) :
  last3 (Str.split " " (Str.drop 56 l0)) = [m; s; c] ->
  Str.split " " (last (l0 :: rest) "")
  = [t0; t1; t2; t3; t4; t5; t6; t7; t8; t9; t10] ->
  extract_data_from_page (LINE_TITLE :: LINE_COLS :: l0 :: rest)
  = Ret (Some (rating_record m s c
                 (extract_paren t1) (extract_paren t4) (extract_paren t6)
                 (extract_paren t8) (extract_paren t10))).
Proof.
  intros H3 H11. rewrite extract_data_from_page_matched, H3, H11.
  reflexivity.
Qed.

Lemma malformed_count_kept_witness :
  extract_data_from_page rating_page_abc
  = Ret (Some (rating_record "4.10" "0.95" "25"
                 (extract_paren "(abc)") (extract_paren "(2)")
                 (extract_paren "(7)") (extract_paren "(7)")
                 (extract_paren "(10)"))).
Proof.
  apply (malformed_count_kept data_line [rating_last_line_abc]
           "4.10" "0.95" "25"
           "Poor" "(abc)" "Below" "Average" "(2)" "Average" "(7)"
           "Good" "(7)" "Excellent" "(10)"); reflexivity.
Defined.

(** ** Outcomes of the two extractors *)

Lemma unpack2_cases {A : Type} (l : list A) :
  unpack2 l = Raise ValueError \/ exists a b, unpack2 l = Ret (a, b).
Proof.
  destruct l as [|a [|b [|c l]]]; simpl; eauto.
Qed.

Lemma frontpage_fields_outcome (before after : string) :
  front_outcome (frontpage_fields before after).
Proof.
  unfold frontpage_fields, front_outcome.
  destruct (unpack2_cases (Str.splitn 1 " " (Str.strip before)))
    as [->|(y & s & ->)]; cbn [bind]; [now auto|].
  destruct (Str.contains ")" after).
  - destruct (unpack2_cases (Str.split ")" after)) as [->|(c & i & ->)];
      cbn [bind]; [now auto|].
    right; right. now eexists _, _, _, _.
  - destruct (unpack2_cases (Str.splitn 1 " " (Str.strip after)))
      as [->|(c & i & ->)]; cbn [bind]; [now auto|].
    right; right. now eexists _, _, _, _.
Qed.

Lemma split_on_names_cases (names : list string) (line : string) :
  split_on_names names line = Raise ValueError
  \/ exists o, split_on_names names line = Ret o.
Proof.
  induction names as [|name names IH]; simpl; [eauto|].
  destruct (Str.contains _ line); [|assumption].
  destruct (unpack2_cases (Str.split (name ++ " -") line))
    as [->|(b & a & ->)]; cbn [bind]; eauto.
Qed.

Lemma frontpage_of_line_outcome (names : list string) (line : string) :
  front_outcome (frontpage_of_line names line).
Proof.
  unfold frontpage_of_line.
  destruct (split_on_names_cases names line) as [->|([[b a]|] & ->)];
    cbn [bind].
  - unfold front_outcome; auto.
  - apply frontpage_fields_outcome.
  - destruct (Str.contains "CS" line); cbn [bind].
    + destruct (unpack2_cases (Str.splitn 1 "CS" line)) as [->|(b & a & ->)];
        cbn [bind]; [unfold front_outcome; auto|].
      apply frontpage_fields_outcome.
    + unfold front_outcome; auto.
Qed.

Lemma extract_frontpage_outcome (table : list string) :
  front_outcome (extract_frontpage table).
Proof.
  unfold extract_frontpage, extract_frontpage_with.
  destruct (List.length table <? 2)%nat eqn:L; [unfold front_outcome; auto|].
  destruct table as [|t0 [|line rest]]; try discriminate L.
  cbn [index nth_error bind]. apply frontpage_of_line_outcome.
Qed.

Lemma extract_data_from_page_outcome (table : list string) :
  rating_outcome (extract_data_from_page table).
Proof.
  unfold rating_outcome.
  destruct table as [|t0 [|t1 [|l0 rest]]].
  - now left.
  - unfold extract_data_from_page. cbn [List.length Nat.eqb index nth_error bind].
    destruct (String.eqb t0 LINE_TITLE); cbn; auto.
  - unfold extract_data_from_page. cbn [List.length Nat.eqb index nth_error bind].
    destruct (String.eqb t0 LINE_TITLE); cbn; auto.
    destruct (String.eqb t1 LINE_COLS); cbn; auto.
  - destruct (String.eqb_spec t0 LINE_TITLE) as [->|N0].
    + destruct (String.eqb_spec t1 LINE_COLS) as [->|N1].
      * rewrite extract_data_from_page_matched.
        destruct (unpack3 _) as [[[m s] c]|e] eqn:U3; cbn [bind].
        -- destruct (unpack_ratings _) as [[[[[p b] a] g] e]|e] eqn:UR;
             cbn [bind].
           ++ do 3 right. now eexists _, _, _, _, _, _, _, _.
           ++ right; left. f_equal.
              destruct (Str.split " " (last (l0 :: rest) ""))
                as [|? [|? [|? [|? [|? [|? [|? [|? [|? [|? [|? [|? ?]]]]]]]]]]]];
                cbn in UR; congruence.
        -- right; left. f_equal.
           destruct (last3 _) as [|? [|? [|? [|? ?]]]]; cbn in U3; congruence.
      * left. unfold extract_data_from_page.
        cbn [List.length Nat.eqb index nth_error bind].
        change (String.eqb LINE_TITLE LINE_TITLE) with true. cbn [negb bind].
        apply String.eqb_neq in N1. now rewrite N1.
    + left. unfold extract_data_from_page.
      cbn [List.length Nat.eqb index nth_error bind].
      apply String.eqb_neq in N0. now rewrite N0.
Qed.

(** C5 does not hold of the code: [extract_data_from_page] tests
    [len(table) == 0] and then reads [table[1]] and [table[2:][0]], so
    that a page made of the title alone, or of the title and the header
    alone, raises [IndexError] where the other mismatches return
    [None]; a last line that does not split into 11 tokens raises
    [ValueError]; and in [extract_frontpage] a line with a single word
    before its separator raises [ValueError]. None of these is the
    record or the "no match" of the claim. *)
Theorem extractors_raise :
  extract_data_from_page [LINE_TITLE] = Raise IndexError
  /\ extract_data_from_page [LINE_TITLE; LINE_COLS] = Raise IndexError
  /\ extract_data_from_page rating_page_short_last = Raise ValueError
  /\ extract_frontpage front_page_no_semester = Raise ValueError
  /\ ~ no_raise (extract_data_from_page [LINE_TITLE])
  /\ ~ no_raise (extract_data_from_page [LINE_TITLE; LINE_COLS])
  /\ ~ no_raise (extract_data_from_page rating_page_short_last)
  /\ ~ no_raise (extract_frontpage front_page_no_semester).
Proof.
  repeat split; try reflexivity; intros [H|[d H]]; discriminate H.
Qed.

(** ** The document loop *)

(** Whenever the first page gives no front matter and the second page
    holds a rating table, the merge is attempted on [None]. *)
Lemma parse_pdf_xml_no_frontpage (p0 p1 : page) (rest : list page) (r : dict) :
  extract_frontpage (extract_page p0) = Ret None ->
  extract_data_from_page (extract_page p1) = Ret (Some r) ->
  parse_pdf_xml (p0 :: p1 :: rest) = Raise AttributeError.
Proof.
  intros H0 H1. unfold parse_pdf_xml. cbn [pages_loop Nat.eqb].
  rewrite H0. cbn [bind]. now rewrite H1.
Qed.

(** With a front page the rating record is merged into the front-page
    record, and the pages in between are passed over. *)
Example parse_pdf_xml_complete :
  parse_pdf_xml document_complete
  = Ret (Some (front_record "CS4XX-01" "Jane Doe" "2020" "Spring"
               ++ rating_record "4.10" "0.95" "25" "1" "2" "7" "7" "10")).
Proof. vm_compute. reflexivity. Qed.

(** C4 does not hold of the code: on a document whose first page gives
    no front matter and whose second page matches the rating table,
    [parse_pdf_xml] raises [AttributeError] ([frontpage.update] on
    [None]) where the claim has it yield nothing. *)
Theorem parse_pdf_xml_missing_frontpage_raises :
  extract_frontpage (extract_page []) = Ret None
  /\ extract_data_from_page (extract_page rating_words)
     = Ret (Some (rating_record "4.10" "0.95" "25" "1" "2" "7" "7" "10"))
  /\ parse_pdf_xml document_without_frontpage = Raise AttributeError.
Proof. repeat split; vm_compute; reflexivity. Qed.

(** ** Line reconstruction *)

Section Sorting.

Lemma key_lt_true (a b : Word.t) : key_lt a b = true -> key_le a b.
Proof.
  unfold key_lt, key_le, Qlt_bool.
  destruct (Qeq_bool (Word.y a) (Word.y b)) eqn:E.
  - apply Qeq_bool_iff in E. intros H. right. split; [assumption|].
    apply negb_true_iff in H.
    destruct (Qle_bool (Word.x b) (Word.x a)) eqn:L; [discriminate|].
    apply Qlt_le_weak, Qnot_le_lt. intros C.
    apply Qle_bool_iff in C. congruence.
  - intros H. left. apply negb_true_iff in H.
    apply Qnot_le_lt. intros C. apply Qle_bool_iff in C. congruence.
Qed.

Lemma key_lt_false (a b : Word.t) : key_lt a b = false -> key_le b a.
Proof.
  unfold key_lt, key_le, Qlt_bool.
  destruct (Qeq_bool (Word.y a) (Word.y b)) eqn:E.
  - apply Qeq_bool_iff in E. intros H. right. split; [now symmetry|].
    apply negb_false_iff, Qle_bool_iff in H. exact H.
  - apply Qeq_bool_neq in E. intros H.
    apply negb_false_iff, Qle_bool_iff in H.
    left. apply Qle_lteq in H. destruct H as [H|H]; [assumption|].
    exfalso. apply E. now symmetry.
Qed.

Lemma key_le_trans (a b c : Word.t) : key_le a b -> key_le b c -> key_le a c.
Proof. unfold key_le. intros [H|[H H']] [K|[K K']]; lra. Qed.

Lemma insert_word_perm (w : Word.t) (l : list Word.t) :
  Permutation (insert_word w l) (w :: l).
Proof.
  induction l as [|v l IH]; simpl; [reflexivity|].
  destruct (key_lt v w); [|reflexivity].
  rewrite IH. apply perm_swap.
Qed.

Lemma sort_words_perm (l : list Word.t) : Permutation (sort_words l) l.
Proof.
  induction l as [|w l IH]; simpl; [reflexivity|].
  rewrite insert_word_perm. now constructor.
Qed.

Lemma insert_word_sorted (w : Word.t) (l : list Word.t) :
  StronglySorted key_le l -> StronglySorted key_le (insert_word w l).
Proof.
  induction 1 as [|v l S IH F]; simpl.
  - repeat constructor.
  - destruct (key_lt v w) eqn:K.
    + constructor; [assumption|].
      apply (Permutation_Forall (Permutation_sym (insert_word_perm w l))).
      constructor; [now apply key_lt_true|assumption].
    + apply key_lt_false in K.
      constructor; [now constructor|].
      constructor; [assumption|].
      eapply Forall_impl; [|exact F].
      intros u. now apply key_le_trans.
Qed.

Lemma sort_words_sorted (l : list Word.t) : StronglySorted key_le (sort_words l).
Proof.
  induction l; simpl; [constructor|now apply insert_word_sorted].
Qed.

(** The sort is stable: words of equal keys keep their order. *)
Lemma insert_word_stable (a w : Word.t) (l : list Word.t) :
  filter (same_key a) (insert_word w l) = filter (same_key a) (w :: l).
Proof.
  induction l as [|v l IH]; [reflexivity|].
  cbn [insert_word]. destruct (key_lt v w) eqn:K; [|reflexivity].
  cbn [filter] in *. rewrite IH.
  destruct (same_key a w) eqn:Ew; [|reflexivity].
  destruct (same_key a v) eqn:Ev; [|reflexivity].
  exfalso. unfold same_key in Ew, Ev.
  apply andb_true_iff in Ew, Ev.
  destruct Ew as [Ew1 Ew2], Ev as [Ev1 Ev2].
  apply Qeq_bool_iff in Ew1, Ew2, Ev1, Ev2.
  assert (Eyy : Qeq_bool (Word.y v) (Word.y w) = true)
    by (apply Qeq_bool_iff; lra).
  assert (Lxx : Qle_bool (Word.x w) (Word.x v) = true)
    by (apply Qle_bool_iff; lra).
  unfold key_lt, Qlt_bool in K. rewrite Eyy, Lxx in K. discriminate K.
Qed.

Lemma sort_words_stable (a : Word.t) (l : list Word.t) :
  filter (same_key a) (sort_words l) = filter (same_key a) l.
Proof.
  induction l as [|w l IH]; [reflexivity|].
  cbn [sort_words]. rewrite insert_word_stable.
  cbn [filter]. now rewrite IH.
Qed.

End Sorting.

Section Grouping.

Lemma StronglySorted_app_In {A : Type} (R : A -> A -> Prop) (l1 l2 : list A) :
  StronglySorted R (l1 ++ l2) ->
  forall a b, In a l1 -> In b l2 -> R a b.
Proof.
  induction l1 as [|u l1 IH]; simpl; intros S a b Ha Hb; [contradiction|].
  apply StronglySorted_inv in S. destruct S as [S F].
  destruct Ha as [<-|Ha].
  - rewrite Forall_forall in F. apply F, in_or_app. now right.
  - now apply IH.
Qed.

Lemma StronglySorted_app_r {A : Type} (R : A -> A -> Prop) (l1 l2 : list A) :
  StronglySorted R (l1 ++ l2) -> StronglySorted R l2.
Proof.
  induction l1 as [|u l1 IH]; simpl; intros S; [assumption|].
  apply StronglySorted_inv in S. now apply IH.
Qed.

Lemma StronglySorted_filter {A : Type} (R : A -> A -> Prop) (f : A -> bool)
  (l : list A) :
  StronglySorted R l -> StronglySorted R (filter f l).
Proof.
  induction 1 as [|u l S IH F]; simpl; [constructor|].
  destruct (f u); [|assumption].
  constructor; [assumption|].
  rewrite Forall_forall in *. intros v Hv.
  apply filter_In in Hv. now apply F.
Qed.

Lemma filter_none {A : Type} (f : A -> bool) (l : list A) :
  (forall a, In a l -> f a = false) -> filter f l = [].
Proof.
  induction l as [|u l IH]; simpl; intros H; [reflexivity|].
  rewrite (H u) by now left. apply IH. intros a Ha. apply H. now right.
Qed.

Lemma filter_all {A : Type} (f : A -> bool) (l : list A) :
  (forall a, In a l -> f a = true) -> filter f l = l.
Proof.
  induction l as [|u l IH]; simpl; intros H; [reflexivity|].
  rewrite (H u) by now left. f_equal. apply IH. intros a Ha. apply H. now right.
Qed.

Lemma filter_perm {A : Type} (f : A -> bool) (l l' : list A) :
  Permutation l l' -> Permutation (filter f l) (filter f l').
Proof.
  induction 1 as [|u l l' P IH|u v l|l l' l'' P1 IH1 P2 IH2]; simpl.
  - constructor.
  - destruct (f u); [now constructor|assumption].
  - destruct (f u), (f v); try reflexivity. apply perm_swap.
  - now transitivity (filter f l').
Qed.

(** The loop of the code builds the texts of the lines of [chunk]. *)
Lemma line_loop_chunk (words cur : list Word.t) (last_y : Q)
  (table : list string) :
  line_loop last_y (map Word.text cur) table words
  = table ++ map line_text (chunk last_y cur words).
Proof.
  revert cur last_y table.
  induction words as [|w words IH]; intros cur last_y table; simpl.
  - reflexivity.
  - destruct (Qeq_bool last_y (Word.y w)); simpl.
    + change [Word.text w] with (map Word.text [w]).
      rewrite <- map_app. apply IH.
    + change [Word.text w] with (map Word.text [w]).
      rewrite IH, <- app_assoc. reflexivity.
Qed.

Lemma chunk_concat (words cur : list Word.t) (last_y : Q) :
  concat (chunk last_y cur words) = cur ++ words.
Proof.
  revert cur last_y.
  induction words as [|w words IH]; intros cur last_y; simpl.
  - reflexivity.
  - destruct (Qeq_bool last_y (Word.y w)); simpl.
    + rewrite IH, <- app_assoc. reflexivity.
    + rewrite IH. reflexivity.
Qed.

(** No line is empty, provided the loop starts on a word of height
    [last_y]. *)
Lemma chunk_nonempty (words cur : list Word.t) (last_y : Q) :
  cur <> [] \/ (exists w rest, words = w :: rest
                               /\ Qeq_bool last_y (Word.y w) = true) ->
  Forall (fun g => g <> []) (chunk last_y cur words).
Proof.
  revert cur last_y.
  induction words as [|w words IH]; intros cur last_y H; simpl.
  - constructor; [|constructor].
    destruct H as [H|(w & rest & E & _)]; [assumption|discriminate].
  - destruct (Qeq_bool last_y (Word.y w)) eqn:E; simpl.
    + apply IH. left. now destruct cur.
    + constructor.
      * destruct H as [H|(w' & rest & [= <- <-] & E')]; [assumption|congruence].
      * apply IH. left. discriminate.
Qed.

(** The words of a line share their height. *)
Lemma chunk_uniform (words cur : list Word.t) (last_y : Q) :
  Forall (fun a => Word.y a == last_y) cur ->
  Forall (fun g => exists c, Forall (fun a => Word.y a == c) g)
         (chunk last_y cur words).
Proof.
  revert cur last_y.
  induction words as [|w words IH]; intros cur last_y H; simpl.
  - constructor; [now exists last_y|constructor].
  - destruct (Qeq_bool last_y (Word.y w)) eqn:E; simpl.
    + apply IH. apply Forall_app. split; [assumption|].
      constructor; [|constructor]. apply Qeq_bool_iff in E. now symmetry.
    + constructor; [now exists last_y|].
      apply IH. constructor; [reflexivity|constructor].
Qed.

(** On sorted words the lines go down the page. *)
Lemma chunk_sorted (words cur : list Word.t) (last_y : Q) :
  Forall (fun a => Word.y a == last_y) cur ->
  StronglySorted key_le (cur ++ words) ->
  StronglySorted group_lt (chunk last_y cur words).
Proof.
  revert cur last_y.
  induction words as [|w words IH]; intros cur last_y U S; simpl.
  - repeat constructor.
  - destruct (Qeq_bool last_y (Word.y w)) eqn:E; simpl.
    + apply IH.
      * apply Forall_app. split; [assumption|].
        constructor; [|constructor]. apply Qeq_bool_iff in E. now symmetry.
      * now rewrite <- app_assoc.
    + apply Qeq_bool_neq in E.
      pose proof (StronglySorted_app_r _ _ _ S) as Sw.
      constructor.
      * apply IH; [constructor; [reflexivity|constructor]|exact Sw].
      * rewrite Forall_forall. intros g Hg a b Ha Hb.
        assert (Hb' : In b (w :: words)).
        { change (w :: words) with ([w] ++ words).
          rewrite <- (chunk_concat words [w] (Word.y w)).
          apply in_concat. now exists g. }
        assert (Kaw : key_le a w).
        { apply (StronglySorted_app_In _ _ _ S); [assumption|now left]. }
        assert (Ya : Word.y a == last_y).
        { rewrite Forall_forall in U. now apply U. }
        assert (Kwb : Word.y w <= Word.y b).
        { destruct Hb' as [<-|Hb']; [lra|].
          apply StronglySorted_inv in Sw. destruct Sw as [_ F].
          rewrite Forall_forall in F. specialize (F b Hb').
          unfold key_le in F. lra. }
        unfold key_le in Kaw.
        destruct Kaw as [Kaw|[Kaw _]]; [lra|].
        exfalso. apply E. rewrite <- Ya. exact Kaw.
Qed.

End Grouping.

Section Lines.

Lemma uniform_x_sorted (c : Q) (g : list Word.t) :
  Forall (fun a => Word.y a == c) g ->
  StronglySorted key_le g -> StronglySorted x_le g.
Proof.
  intros U S. induction S as [|u l S IH F]; [constructor|].
  apply Forall_cons_iff in U. destruct U as [Yu U].
  constructor; [now apply IH|].
  rewrite Forall_forall in *. intros v Hv.
  specialize (F v Hv). specialize (U v Hv).
  unfold key_le in F. unfold x_le. lra.
Qed.

(** In a list of non-empty lines that go down the page, each of one
    height, a line holds every word of the list that has its height. *)
Lemma group_is_words_at (G : list (list Word.t)) (g : list Word.t) :
  StronglySorted group_lt G ->
  Forall (fun g => g <> []) G ->
  Forall (fun g => exists c, Forall (fun a => Word.y a == c) g) G ->
  In g G ->
  exists c, Forall (fun a => Word.y a == c) g /\ g = words_at c (concat G).
Proof.
  intros S N U Hg.
  rewrite Forall_forall in N, U.
  destruct (U g Hg) as [c Uc]. specialize (N g Hg).
  exists c. split; [assumption|].
  destruct (in_split _ _ Hg) as (G1 & G2 & ->).
  destruct g as [|b g]; [congruence|].
  assert (Yb : Word.y b == c) by now apply Forall_inv in Uc.
  unfold words_at.
  rewrite concat_app, filter_app. cbn [concat]. rewrite filter_app.
  rewrite (filter_none _ (concat G1)), (filter_none _ (concat G2)),
    (filter_all _ (b :: g)).
  - cbn [app]. now rewrite app_nil_r.
  - rewrite Forall_forall in Uc. intros a Ha.
    apply Qeq_bool_iff. now apply Uc.
  - intros a Ha. apply in_concat in Ha. destruct Ha as (g' & Hg' & Ha).
    apply StronglySorted_app_r, StronglySorted_inv in S.
    destruct S as [_ F]. rewrite Forall_forall in F.
    pose proof (F g' Hg' b a (or_introl eq_refl) Ha) as L.
    destruct (Qeq_bool (Word.y a) c) eqn:E; [|reflexivity].
    apply Qeq_bool_iff in E. lra.
  - intros a Ha. apply in_concat in Ha. destruct Ha as (g' & Hg' & Ha).
    pose proof (StronglySorted_app_In _ _ _ S g' (b :: g) Hg'
                  (or_introl eq_refl) a b Ha (or_introl eq_refl)) as L.
    destruct (Qeq_bool (Word.y a) c) eqn:E; [|reflexivity].
    apply Qeq_bool_iff in E. lra.
Qed.

(** The lines of a page before the sentinel is looked for: one line for
    each height that occurs, from the top down, holding the words of
    that height from left to right. [extract_page] returns their texts,
    less a leading sentinel. *)
Lemma extract_page_groups (p : page) :
  exists G : list (list Word.t),
    extract_page p = drop_sentinel (map line_text G)
    /\ Permutation (concat G) p
    /\ StronglySorted group_lt G
    /\ Forall (fun g => g <> [] /\ StronglySorted x_le g
                        /\ exists c, Permutation g (words_at c p)) G.
Proof.
  unfold extract_page.
  pose proof (sort_words_perm p) as P.
  pose proof (sort_words_sorted p) as S.
  destruct (sort_words p) as [|w0 ws] eqn:ES.
  - exists []. repeat split; try constructor. exact P.
  - set (G := chunk (Word.y w0) [] (w0 :: ws)).
    assert (C : concat G = w0 :: ws) by apply chunk_concat.
    assert (N : Forall (fun g => g <> []) G).
    { apply chunk_nonempty. right. exists w0, ws.
      split; [reflexivity|apply Qeq_bool_refl]. }
    assert (U : Forall (fun g => exists c, Forall (fun a => Word.y a == c) g) G)
      by (apply chunk_uniform; constructor).
    assert (L : StronglySorted group_lt G)
      by (apply chunk_sorted; [constructor|exact S]).
    exists G. split; [|split; [|split]].
    + f_equal. apply (line_loop_chunk (w0 :: ws) [] (Word.y w0) []).
    + now rewrite C.
    + exact L.
    + rewrite Forall_forall. intros g Hg.
      destruct (group_is_words_at G g L N U Hg) as (c & Uc & Eg).
      split; [|split].
      * rewrite Forall_forall in N. now apply N.
      * apply (uniform_x_sorted c); [assumption|].
        rewrite Eg, C. now apply StronglySorted_filter.
      * exists c. rewrite Eg at 1. rewrite C.
        now apply filter_perm.
Qed.

(** Three words given out of order, two of them on one line. *)
Example extract_page_example :
  extract_page [Word.mk "Doe" 7 2; Word.mk "Report" 1 1; Word.mk "Jane" 3 2]
  = ["Report"; "Jane Doe"].
Proof. reflexivity. Qed.


End Lines.

(** * Further properties *)

(** ** Tokens and parentheses *)

Section Tokens.

Lemma extract_paren_inner (a b : ascii) (s : string) :
  extract_paren (String a (s ++ String b EmptyString)) = s.
Proof.
  unfold extract_paren.
  replace (String.length (String a (s ++ String b EmptyString)) - 1)%nat
    with (S (String.length s))
    by (cbn [String.length]; rewrite length_app; cbn [String.length]; lia).
  cbn [Str.take Str.drop].
  induction s as [|c s IH]; [reflexivity|].
  cbn [String.append String.length Str.take]. now rewrite IH.
Qed.

(** X1: [extract_paren] removes the first and the last character,
    whatever they are, and leaves what is between them. *)
Theorem extract_paren_between (a b : ascii) (s : string) :
  extract_paren (String a (s ++ String b EmptyString)) = s.
Proof. apply extract_paren_inner. Qed.

Lemma cut_space_here (t rest : string) :
  no_space t = true ->
  Str.cut " " (t ++ " " ++ rest) = Some (t, rest).
Proof.
  induction t as [|c t IH]; intros H.
  - cbn [String.append]. rewrite cut_unfold.
    assert (P : prefix " " (String " " rest) = true)
      by apply (prefix_app " " rest).
    now rewrite P.
  - cbn [no_space] in H. apply andb_true_iff in H. destruct H as [Hc Ht].
    change (String c t ++ " " ++ rest)%string
      with (String c (t ++ " " ++ rest)).
    rewrite cut_unfold.
    assert (P : prefix " " (String c (t ++ " " ++ rest)) = false).
    { cbn [prefix]. destruct (ascii_dec " " c) as [<-|]; [discriminate|].
      reflexivity. }
    rewrite P, (IH Ht). reflexivity.
Qed.

Lemma cut_space_none (t : string) :
  no_space t = true -> Str.cut " " t = None.
Proof.
  induction t as [|c t IH]; intros H; [reflexivity|].
  cbn [no_space] in H. apply andb_true_iff in H. destruct H as [Hc Ht].
  rewrite cut_unfold.
  assert (P : prefix " " (String c t) = false).
  { cbn [prefix]. destruct (ascii_dec " " c) as [<-|]; [discriminate|].
    reflexivity. }
  now rewrite P, (IH Ht).
Qed.

Lemma splitn_join (toks : list string) (fuel : nat) :
  toks <> [] -> Forall (fun t => no_space t = true) toks ->
  (List.length toks <= S fuel)%nat ->
  Str.splitn fuel " " (Str.join " " toks) = toks.
Proof.
  revert fuel. induction toks as [|t toks IH]; intros fuel N F L;
    [congruence|].
  apply Forall_cons_iff in F. destruct F as [Ht F].
  destruct toks as [|u toks].
  - cbn [Str.join]. destruct fuel; cbn [Str.splitn]; [reflexivity|].
    now rewrite (cut_space_none _ Ht).
  - destruct fuel as [|fuel]; [cbn in L; lia|].
    change (Str.join " " (t :: u :: toks))
      with (t ++ " " ++ Str.join " " (u :: toks))%string.
    cbn [Str.splitn]. rewrite (cut_space_here _ _ Ht).
    f_equal. apply IH; [discriminate|assumption|cbn in *; lia].
Qed.

Lemma join_length (toks : list string) :
  (List.length toks <= S (String.length (Str.join " " toks)))%nat.
Proof.
  induction toks as [|t [|u toks] IH]; cbn [List.length]; try lia.
  change (Str.join " " (t :: u :: toks))
    with (t ++ " " ++ Str.join " " (u :: toks))%string.
  rewrite !length_app. cbn [String.length List.length] in *. lia.
Qed.

(** Joining tokens that hold no space with single spaces and splitting
    the line on spaces gives the tokens back. *)
Theorem split_join (toks : list string) :
  toks <> [] -> Forall (fun t => no_space t = true) toks ->
  Str.split " " (Str.join " " toks) = toks.
Proof.
  intros N F. unfold Str.split. apply splitn_join; try assumption.
  apply join_length.
Qed.

Lemma split_join_witness :
  Str.split " " (Str.join " " ["Poor"; "(1)"; "Below"])
  = ["Poor"; "(1)"; "Below"].
Proof.
  apply (split_join ["Poor"; "(1)"; "Below"]); [discriminate|].
  repeat constructor.
Defined.

(** X2: the tokens of a reconstructed line are the texts of its words, when
    no text holds a space. *)
Theorem line_tokens (g : list Word.t) :
  g <> [] -> Forall (fun w => no_space (Word.text w) = true) g ->
  Str.split " " (line_text g) = map Word.text g.
Proof.
  intros N F. unfold line_text. apply split_join.
  - destruct g; [congruence|discriminate].
  - now apply Forall_map.
Qed.

Lemma line_tokens_witness :
  Str.split " " (line_text [Word.mk "Jane" 3 2; Word.mk "Doe" 7 2])
  = ["Jane"; "Doe"].
Proof.
  apply (line_tokens [Word.mk "Jane" 3 2; Word.mk "Doe" 7 2]);
    [discriminate|repeat constructor].
Defined.

End Tokens.

(** ** From the extracted strings to a Rating *)

Section Conversion.

Import Calculate.

Ltac digit_step IH :=
  cbn [NilEmpty.string_of_uint Nat.of_uint_acc digits];
  match goal with
  | |- context [digit_val ?c] =>
      let v := eval vm_compute in (digit_val c) in
      change (digit_val c) with v
  end;
  cbv beta iota; rewrite <- IH; f_equal;
  rewrite Nat.tail_mul_spec; lia.

Lemma digits_show (d : Decimal.uint) (a : nat) :
  digits (Z.of_nat a) true (NilEmpty.string_of_uint d)
  = Some (Z.of_nat (Nat.of_uint_acc d a)).
Proof.
  revert a. induction d as [|d IH|d IH|d IH|d IH|d IH|d IH|d IH|d IH|d IH|d IH];
    intros a; [reflexivity|digit_step IH ..].
Qed.

Lemma rskip_show (d : Decimal.uint) :
  rskip (NilEmpty.string_of_uint d) = NilEmpty.string_of_uint d.
Proof.
  induction d; cbn [NilEmpty.string_of_uint rskip]; try reflexivity;
    rewrite IHd; now destruct (NilEmpty.string_of_uint d).
Qed.

Lemma no_space_show (n : nat) : no_space (show_nat n) = true.
Proof.
  unfold show_nat, NilZero.string_of_uint.
  destruct (Nat.to_uint n) as [|d|d|d|d|d|d|d|d|d|d]; try reflexivity;
    cbn [NilEmpty.string_of_uint no_space]; cbn [Ascii.eqb Bool.eqb negb andb];
    induction d; cbn [NilEmpty.string_of_uint no_space]; auto.
Qed.

Lemma digits_uint (d : Decimal.uint) :
  d <> Decimal.Nil ->
  digits 0 false (NilEmpty.string_of_uint d) = Some (Z.of_nat (Nat.of_uint d)).
Proof.
  intros N.
  destruct d; [congruence|..];
    cbn [NilEmpty.string_of_uint digits];
    match goal with
    | |- context [digit_val ?c] =>
        let v := eval vm_compute in (digit_val c) in
        change (digit_val c) with v
    end;
    cbv beta iota;
    match goal with
    | |- context [digits ?z true _] =>
        change z with (Z.of_nat (Z.to_nat z))
    end;
    rewrite digits_show; reflexivity.
Qed.

Lemma count_digits_show (d : Decimal.uint) :
  count_digits (NilEmpty.string_of_uint d)
  = Z.of_nat (String.length (NilEmpty.string_of_uint d)).
Proof.
  induction d; cbn [NilEmpty.string_of_uint count_digits String.length];
    try reflexivity;
    match goal with
    | |- context [digit_val ?c] =>
        let v := eval vm_compute in (digit_val c) in
        change (digit_val c) with v
    end;
    cbv beta iota; rewrite IHd; lia.
Qed.

Lemma int_of_string_uint (d : Decimal.uint) :
  d <> Decimal.Nil ->
  (Z.of_nat (String.length (NilEmpty.string_of_uint d)) <= MAX_STR_DIGITS)%Z ->
  int_of_string (NilEmpty.string_of_uint d) = Ok (Z.of_nat (Nat.of_uint d)).
Proof.
  intros N B. unfold int_of_string.
  assert (L : lskip (NilEmpty.string_of_uint d) = NilEmpty.string_of_uint d)
    by (destruct d; reflexivity).
  rewrite L, rskip_show.
  assert (M : match NilEmpty.string_of_uint d with
              | String "+" u => digits 0 false u
              | String "-" u => option_map Z.opp (digits 0 false u)
              | _ => digits 0 false (NilEmpty.string_of_uint d)
              end = digits 0 false (NilEmpty.string_of_uint d))
    by (destruct d; reflexivity).
  rewrite M, (digits_uint _ N), count_digits_show.
  apply Z.ltb_ge in B. now rewrite B.
Qed.

(** [int()] reads back a natural number written in decimal with no more
    digits than it accepts. *)
Lemma int_of_string_show (n : nat) :
  fits n -> int_of_string (show_nat n) = Ok (Z.of_nat n).
Proof.
  unfold fits, show_nat, NilZero.string_of_uint.
  assert (N : Nat.to_uint n <> Decimal.Nil).
  { intros E. pose proof (DecimalNat.Unsigned.of_to n) as H.
    rewrite E in H. cbn in H. subst n. discriminate E. }
  pose proof (int_of_string_uint _ N) as H.
  rewrite DecimalNat.Unsigned.of_to in H.
  destruct (Nat.to_uint n); [congruence|exact H ..].
Qed.

Lemma int_of_string_cases (s : string) :
  (exists z, int_of_string s = Ok z) \/ int_of_string s = Err ValueError.
Proof.
  unfold int_of_string.
  destruct (match rskip (lskip s) with
            | String "+" u => digits 0 false u
            | String "-" u => option_map Z.opp (digits 0 false u)
            | _ => digits 0 false (rskip (lskip s))
            end) as [z|]; [|now right].
  destruct (MAX_STR_DIGITS <? count_digits (rskip (lskip s)))%Z;
    [now right|left; now exists z].
Qed.

(** [from_dict] looks at the five counts only: the other keys of a
    merged record play no part. *)
Lemma from_dict_merged (c i y s m sd cnt p b a g e : string) :
  from_dict (front_record c i y s ++ rating_record m sd cnt p b a g e)
  = from_dict (rating_record m sd cnt p b a g e).
Proof. reflexivity. Qed.

Lemma from_dict_rating_record (m sd cnt p b a g e : string) :
  from_dict (rating_record m sd cnt p b a g e)
  = (p' <-- int_of_string p ;;
     b' <-- int_of_string b ;;
     a' <-- int_of_string a ;;
     g' <-- int_of_string g ;;
     e' <-- int_of_string e ;;
     Ok (mkRating p' b' a' g' e')).
Proof. reflexivity. Qed.

Lemma extract_paren_paren (n : nat) : extract_paren (paren n) = show_nat n.
Proof. apply (extract_paren_inner "(" ")"). Qed.

Lemma no_space_paren (n : nat) : no_space (paren n) = true.
Proof.
  unfold paren. cbn [String.append no_space].
  change (negb (Ascii.eqb "(" " ")) with true. cbn [andb].
  generalize (no_space_show n).
  induction (show_nat n) as [|c t IH]; [reflexivity|].
  cbn [String.append no_space]. intros H.
  apply andb_true_iff in H. destruct H as [Hc Ht].
  now rewrite Hc, (IH Ht).
Qed.

Lemma split_rating_line (n1 n2 n3 n4 n5 : nat) :
  Str.split " " (rating_line_of n1 n2 n3 n4 n5)
  = ["Poor"; paren n1; "Below"; "Average"; paren n2; "Average";
     paren n3; "Good"; paren n4; "Excellent"; paren n5].
Proof.
  unfold rating_line_of. apply split_join; [discriminate|].
  repeat constructor; apply no_space_paren.
Qed.

(** X3: five counts written in decimal between parentheses on the rating
    line, each with no more digits than [int()] accepts, come back as
    the [Rating] holding these counts, once the page is extracted and
    the record converted. *)
Theorem counts_round_trip (l0 : string) (mid : list string)
  (m sd cnt : string) (n1 n2 n3 n4 n5 : nat) :
  last3 (Str.split " " (Str.drop 56 l0)) = [m; sd; cnt] ->
  fits n1 -> fits n2 -> fits n3 -> fits n4 -> fits n5 ->
  exists r,
    extract_data_from_page
      (LINE_TITLE :: LINE_COLS :: l0
         :: mid ++ [rating_line_of n1 n2 n3 n4 n5]) = Ret (Some r)
    /\ from_dict r
       = Ok (mkRating (Z.of_nat n1) (Z.of_nat n2) (Z.of_nat n3)
                      (Z.of_nat n4) (Z.of_nat n5)).
Proof.
  intros H3 F1 F2 F3 F4 F5. eexists. split.
  - rewrite extract_data_from_page_matched, H3.
    rewrite app_comm_cons, last_last, split_rating_line. reflexivity.
  - rewrite from_dict_rating_record, !extract_paren_paren.
    rewrite (int_of_string_show _ F1), (int_of_string_show _ F2),
      (int_of_string_show _ F3), (int_of_string_show _ F4),
      (int_of_string_show _ F5).
    reflexivity.
Qed.

Lemma counts_round_trip_witness :
  exists r,
    extract_data_from_page
      (LINE_TITLE :: LINE_COLS :: data_line
         :: [] ++ [rating_line_of 1 2 7 7 10]) = Ret (Some r)
    /\ from_dict r = Ok (mkRating 1 2 7 7 10).
Proof.
  apply (counts_round_trip data_line [] "4.10" "0.95" "25" 1 2 7 7 10);
    [reflexivity|unfold fits; vm_compute; discriminate ..].
Defined.

End Conversion.

(** ** Aggregation and summary *)

Section Summary.

Import Calculate.

Lemma add_swap (a x y : Rating) :
  RatingOps.add (RatingOps.add a x) y = RatingOps.add (RatingOps.add a y) x.
Proof. destruct a, x, y; unfold RatingOps.add; simpl; f_equal; lia. Qed.

Lemma fold_add_perm (l l' : list Rating) :
  Permutation l l' ->
  forall a, fold_left RatingOps.add l a = fold_left RatingOps.add l' a.
Proof.
  induction 1 as [|x l l' P IH|x y l|l l' l'' P1 IH1 P2 IH2]; intros a;
    cbn [fold_left].
  - reflexivity.
  - apply IH.
  - now rewrite add_swap.
  - now rewrite IH1.
Qed.

(** X16: the running total does not depend on the order in which the
    ratings are added. *)
Theorem accumulate_perm (l l' : list Rating) :
  Permutation l l' -> accumulate l = accumulate l'.
Proof. intros P. unfold accumulate. now apply fold_add_perm. Qed.

Lemma accumulate_perm_witness :
  accumulate [mkRating 1 2 7 7 10; mkRating 0 0 0 3 7]
  = accumulate [mkRating 0 0 0 3 7; mkRating 1 2 7 7 10].
Proof.
  apply (accumulate_perm [mkRating 1 2 7 7 10; mkRating 0 0 0 3 7]).
  apply perm_swap.
Defined.

Lemma fold_add_additive (f : Rating -> Z) :
  (forall a b, f (RatingOps.add a b) = (f a + f b)%Z) ->
  forall l a, f (fold_left RatingOps.add l a) = (f a + sumZ f l)%Z.
Proof.
  intros H. induction l as [|x l IH]; intros a; cbn [fold_left sumZ fold_right].
  - lia.
  - rewrite IH, H. fold (sumZ f l). lia.
Qed.

(** X17: each count of the running total is the sum of that count over the
    ratings, and so is the number of responses. *)
Theorem accumulate_sums (l : list Rating) :
  poor (accumulate l) = sumZ poor l
  /\ below_average (accumulate l) = sumZ below_average l
  /\ average (accumulate l) = sumZ average l
  /\ good (accumulate l) = sumZ good l
  /\ excellent (accumulate l) = sumZ excellent l
  /\ RatingOps.get_count (accumulate l) = sumZ RatingOps.get_count l.
Proof.
  unfold accumulate.
  repeat split;
    (rewrite fold_add_additive;
     [reflexivity
     |intros a b; destruct a, b; unfold RatingOps.add, RatingOps.get_count;
      simpl; lia]).
Qed.

Lemma truediv_cases (a b : Z) :
  (b = 0%Z /\ truediv a b = Err ZeroDivisionError)
  \/ (b <> 0%Z /\ truediv a b = Err OverflowError)
  \/ (b <> 0%Z /\ truediv a b = Ok (inject_Z a / inject_Z b)).
Proof.
  unfold truediv. destruct (Z.eqb_spec b 0); [left; now split|right].
  destruct (DBL_OVERFLOW * Z.abs b <=? Z.abs a)%Z; [left|right]; now split.
Qed.

Lemma small_below_overflow : (100 < DBL_OVERFLOW)%Z.
Proof. reflexivity. Qed.

(** A quotient of at most 100 is far from the largest double. *)
Lemma truediv_small (a n k : Z) :
  (0 < n)%Z -> (0 <= a <= k * n)%Z -> (k <= 100)%Z ->
  truediv a n = Ok (inject_Z a / inject_Z n).
Proof.
  intros Hn Ha Hk. unfold truediv.
  assert (E : (n =? 0)%Z = false) by (apply Z.eqb_neq; lia).
  rewrite E, (Z.abs_eq n), (Z.abs_eq a) by lia.
  pose proof small_below_overflow as D.
  assert (L : (DBL_OVERFLOW * n <=? a)%Z = false).
  { apply Z.leb_gt. generalize dependent DBL_OVERFLOW. intros. nia. }
  now rewrite L.
Qed.

(** X19: [get_top1], [get_top2] and [get_mean] raise [ZeroDivisionError]
    exactly when the rating counts no response; when it counts some and
    none of its five counts is negative, each returns its quotient. *)
Theorem summary_zero_count (r : Rating) :
  (RatingOps.get_count r = 0%Z <-> get_top1 r = Err ZeroDivisionError)
  /\ (RatingOps.get_count r = 0%Z <-> get_top2 r = Err ZeroDivisionError)
  /\ (RatingOps.get_count r = 0%Z <-> get_mean r = Err ZeroDivisionError)
  /\ (nonneg r -> RatingOps.get_count r <> 0%Z ->
      exists t1 t2 m,
        get_top1 r = Ok t1 /\ get_top2 r = Ok t2 /\ get_mean r = Ok m).
Proof.
  unfold get_top1, get_top2, get_mean.
  repeat split;
    try (intros H;
         match goal with
         | |- truediv ?a ?b = _ =>
             destruct (truediv_cases a b) as [[_ E]|[[N _]|[N _]]];
             [exact E|congruence ..]
         | H : truediv ?a ?b = _ |- _ =>
             destruct (truediv_cases a b) as [[Z _]|[[_ E]|[_ E]]];
             [exact Z|congruence ..]
         end).
  intros (Hp & Hb & Ha & Hg & He) N.
  assert (P : (0 < RatingOps.get_count r)%Z)
    by (unfold RatingOps.get_count in *; lia).
  unfold RatingOps.get_count in *.
  eexists _, _, _. repeat split.
  - apply (truediv_small _ _ 100); lia.
  - apply (truediv_small _ _ 100); lia.
  - apply (truediv_small _ _ 5); lia.
Qed.

Lemma summary_zero_count_witness :
  exists t1 t2 m,
    get_top1 (mkRating 0 0 0 3 7) = Ok t1
    /\ get_top2 (mkRating 0 0 0 3 7) = Ok t2
    /\ get_mean (mkRating 0 0 0 3 7) = Ok m.
Proof.
  destruct (summary_zero_count (mkRating 0 0 0 3 7)) as (_ & _ & _ & H).
  apply H.
  - unfold nonneg; simpl; lia.
  - discriminate.
Defined.

Lemma Qdiv_upper (a n k : Z) :
  (0 < n)%Z -> (a <= k * n)%Z -> inject_Z a / inject_Z n <= inject_Z k.
Proof.
  intros Hn H. apply Qle_shift_div_r.
  - change 0 with (inject_Z 0). now rewrite <- Zlt_Qlt.
  - rewrite <- inject_Z_mult, <- Zle_Qle. exact H.
Qed.

Lemma Qdiv_lower (a n k : Z) :
  (0 < n)%Z -> (k * n <= a)%Z -> inject_Z k <= inject_Z a / inject_Z n.
Proof.
  intros Hn H. apply Qle_shift_div_l.
  - change 0 with (inject_Z 0). now rewrite <- Zlt_Qlt.
  - rewrite <- inject_Z_mult, <- Zle_Qle. exact H.
Qed.

Lemma Qdiv_mono (a b n : Z) :
  (0 < n)%Z -> (a <= b)%Z ->
  inject_Z a / inject_Z n <= inject_Z b / inject_Z n.
Proof.
  intros Hn H. unfold Qdiv. apply Qmult_le_compat_r.
  - now rewrite <- Zle_Qle.
  - apply Qinv_le_0_compat. change 0 with (inject_Z 0).
    rewrite <- Zle_Qle. lia.
Qed.

(** X20: for counts that are not negative and not all zero, the quotients
    computed by [get_top1], [get_top2] and [get_mean] (before they are
    rounded to a double) satisfy 0 <= Top1 <= Top2 <= 100 and
    1 <= Mean <= 5. *)
Theorem summary_bounds (r : Rating) :
  nonneg r -> RatingOps.get_count r <> 0%Z ->
  exists t1 t2 m,
    summary_of r = Ok (t1, t2, m)
    /\ 0 <= t1 /\ t1 <= t2 /\ t2 <= 100 /\ 1 <= m /\ m <= 5.
Proof.
  intros (Hp & Hb & Ha & Hg & He) N.
  assert (P : (0 < RatingOps.get_count r)%Z)
    by (unfold RatingOps.get_count in *; lia).
  unfold summary_of, get_top1, get_top2, get_mean.
  unfold RatingOps.get_count in *.
  rewrite (truediv_small _ _ 100), (truediv_small _ _ 100),
    (truediv_small _ _ 5) by lia.
  cbn [Calculate.bind].
  eexists _, _, _. split; [reflexivity|].
  split; [|split; [|split; [|split]]].
  - change 0 with (inject_Z 0). apply Qdiv_lower; [assumption|lia].
  - apply Qdiv_mono; [assumption|lia].
  - change 100 with (inject_Z 100). apply Qdiv_upper; [assumption|lia].
  - change 1 with (inject_Z 1). apply Qdiv_lower; [assumption|lia].
  - change 5 with (inject_Z 5). apply Qdiv_upper; [assumption|lia].
Qed.

Lemma summary_bounds_witness :
  exists t1 t2 m,
    summary_of (mkRating 0 0 0 3 7) = Ok (t1, t2, m)
    /\ 0 <= t1 /\ t1 <= t2 /\ t2 <= 100 /\ 1 <= m /\ m <= 5.
Proof.
  apply (summary_bounds (mkRating 0 0 0 3 7)).
  - unfold nonneg; simpl; lia.
  - discriminate.
Defined.

Lemma ratings_of_nil (rows : list dict) :
  ratings_of rows = Ok [] <-> rows = [].
Proof.
  split; [|now intros ->].
  destruct rows as [|x rows]; [reflexivity|].
  cbn [ratings_of]. destruct (from_dict x); cbn [Calculate.bind];
    [|discriminate].
  destruct (ratings_of rows); cbn [Calculate.bind]; discriminate.
Qed.

(** X21: [_compute_summary] returns [None] for the empty list of rows and for
    no other. *)
Theorem compute_summary_none (rows : list dict) :
  _compute_summary rows = Ok None <-> rows = [].
Proof.
  split; [|now intros ->].
  unfold _compute_summary.
  destruct (ratings_of rows) as [[|r rs]|e] eqn:E; cbn [Calculate.bind].
  - intros _. now apply ratings_of_nil.
  - destruct (summary_of _); cbn [Calculate.bind]; discriminate.
  - discriminate.
Qed.

Lemma compute_summary_none_witness :
  Calculate._compute_summary [] = Calculate.Ok None.
Proof. apply (compute_summary_none []). reflexivity. Defined.

Lemma main_loop_ratings (data : list dict) :
  forall t c t' c',
    main_loop data t c = Ok (t', c') ->
    exists rs, ratings_of data = Ok rs
               /\ t' = fold_left RatingOps.add rs t
               /\ (rs = [] -> c' = c).
Proof.
  induction data as [|line rest IH]; intros t c t' c' H.
  - cbn in H. injection H as <- <-. now exists [].
  - cbn [main_loop] in H.
    destruct (from_dict line) as [r|] eqn:F; cbn [Calculate.bind] in H;
      [|discriminate].
    destruct (int_field line "count") as [k|]; cbn [Calculate.bind] in H;
      [|discriminate].
    destruct (IH _ _ _ _ H) as (rs & E & T & _).
    exists (r :: rs). cbn [ratings_of]. rewrite F, E. cbn [Calculate.bind].
    repeat split; [exact T|discriminate].
Qed.

(** X22: whenever [main] of calculate.py gets to its three numbers,
    [_compute_summary] returns the same three on the same rows. *)
Theorem main_agrees_with_summary (data : list dict) (s : Q * Q * Q) :
  main data = Ok s -> _compute_summary data = Ok (Some s).
Proof.
  unfold main, _compute_summary.
  destruct (main_loop data RatingOps.zero 0) as [[t c]|] eqn:L;
    cbn [Calculate.bind]; [|discriminate].
  destruct (main_loop_ratings _ _ _ _ _ L) as (rs & E & T & C).
  rewrite E. cbn [Calculate.bind].
  destruct (truediv_cases (excellent t) c) as [[Z ->]|[[N ->]|[N ->]]];
    cbn [Calculate.bind]; [discriminate ..|].
  destruct (truediv_cases (excellent t + good t) c)
    as [[Z ->]|[[_ ->]|[_ ->]]];
    cbn [Calculate.bind]; [discriminate ..|].
  intros S. destruct rs as [|r rs]; [now specialize (C eq_refl)|].
  unfold accumulate. rewrite <- T, S. reflexivity.
Qed.

Lemma main_agrees_with_summary_witness :
  _compute_summary [rating_record "4.10" "0.95" "25" "0" "0" "0" "3" "7"]
  = Ok (Some (70.0, 100.0, 4.7)).
Proof.
  apply (main_agrees_with_summary
           [rating_record "4.10" "0.95" "25" "0" "0" "0" "3" "7"]).
  reflexivity.
Defined.

Lemma main_loop_zero_count (data : list dict) :
  Forall (fun row => (exists r, from_dict row = Ok r)
                     /\ int_field row "count" = Ok 0%Z) data ->
  forall t, exists t', main_loop data t 0 = Ok (t', 0%Z).
Proof.
  induction 1 as [|row rest [[r F] C] _ IH]; intros t.
  - now exists t.
  - cbn [main_loop]. rewrite F, C. cbn [Calculate.bind]. apply IH.
Qed.

(** X23: [main] divides by the sum of the [count] fields of the rows: when
    every row converts and has a [count] of 0, and in particular when
    there is no row, it raises [ZeroDivisionError], whatever the five
    rating counts are. *)
Theorem main_zero_count (data : list dict) :
  Forall (fun row => (exists r, from_dict row = Ok r)
                     /\ int_field row "count" = Ok 0%Z) data ->
  main data = Err ZeroDivisionError.
Proof.
  intros F. unfold main.
  destruct (main_loop_zero_count data F RatingOps.zero) as [t ->].
  reflexivity.
Qed.

Lemma main_zero_count_witness :
  main [rating_record "4.10" "0.95" "0" "0" "0" "0" "3" "7"]
  = Err ZeroDivisionError.
Proof.
  apply (main_zero_count
           [rating_record "4.10" "0.95" "0" "0" "0" "0" "3" "7"]).
  repeat constructor. now eexists.
Defined.

End Summary.

(** ** Front page: repeated separators and the shape of the record *)

Section FrontPage.

(** If the separator occurs twice, what follows its first occurrence
    still holds it. *)
Lemma cut_twice (sep s a b c : string) :
  s = (a ++ sep ++ b ++ sep ++ c)%string ->
  exists b0 a0, Str.cut sep s = Some (b0, a0)
                /\ Str.contains sep a0 = true.
Proof.
  intros E.
  destruct (Str.cut sep s) as [[b0 a0]|] eqn:C.
  - exists b0, a0. split; [reflexivity|].
    pose proof (cut_Some _ _ _ _ C) as E0.
    pose proof (cut_leftmost _ _ _ _ C a (b ++ sep ++ c)%string E) as L.
    rewrite E0 in E.
    rewrite <- (append_assoc_l b0), <- (append_assoc_l a) in E.
    destruct (append_cut _ _ _ _ E) as (x & _ & ->).
    + rewrite !length_app. lia.
    + apply contains_iff. exists (x ++ b)%string, c.
      now rewrite !append_assoc_l.
  - exfalso. subst s. now apply cut_None in C.
Qed.

Lemma splitn_cons (n : nat) (sep s : string) :
  exists t ts, Str.splitn n sep s = t :: ts.
Proof.
  destruct n; cbn [Str.splitn]; [now eexists _, _|].
  destruct (Str.cut sep s) as [[? ?]|]; now eexists _, _.
Qed.

(** A string in which a non-empty separator occurs twice does not
    split in two. *)
Lemma split_twice (sep s a b c : string) :
  sep <> EmptyString ->
  s = (a ++ sep ++ b ++ sep ++ c)%string ->
  unpack2 (Str.split sep s) = Raise ValueError.
Proof.
  intros N E. unfold Str.split.
  assert (L : (2 <= String.length s)%nat).
  { subst s. rewrite !length_app.
    destruct sep; [congruence|]. simpl. lia. }
  destruct (String.length s) as [|[|k]]; try lia.
  destruct (cut_twice _ _ _ _ _ E) as (b0 & a0 & C & K).
  cbn [Str.splitn]. rewrite C.
  unfold Str.contains in K.
  destruct (Str.cut sep a0) as [[b1 a1]|]; [|discriminate].
  destruct (splitn_cons k sep a1) as (t & ts & ->). reflexivity.
Qed.

Lemma chosen_separator_cases (line sep : string) :
  chosen_separator line = Some sep ->
  sep <> EmptyString
  /\ split_on_names ["Eval"; "Evals"; "Evaluation"] line
     = (ba <- unpack2 (Str.split sep line) ;; Ret (Some ba)).
Proof.
  unfold chosen_separator. cbn [find split_on_names].
  change ("Eval" ++ " -")%string with "Eval -".
  change ("Evals" ++ " -")%string with "Evals -".
  change ("Evaluation" ++ " -")%string with "Evaluation -".
  destruct (Str.contains "Eval -" line);
    [intros [= <-]; split; [discriminate|reflexivity]|].
  destruct (Str.contains "Evals -" line);
    [intros [= <-]; split; [discriminate|reflexivity]|].
  destruct (Str.contains "Evaluation -" line);
    [intros [= <-]; split; [discriminate|reflexivity]|].
  discriminate.
Qed.

(** X6: when the separator the line is split at occurs twice in it,
    [extract_frontpage] raises [ValueError]: the split is made at every
    occurrence and its parts are unpacked into two names. *)
Theorem separator_twice_raises (table : list string)
  (line sep a b c : string) :
  nth_error table 1 = Some line ->
  chosen_separator line = Some sep ->
  line = (a ++ sep ++ b ++ sep ++ c)%string ->
  extract_frontpage table = Raise ValueError.
Proof.
  intros H S E. unfold extract_frontpage.
  rewrite (extract_frontpage_with_line _ _ _ H).
  unfold frontpage_of_line.
  destruct (chosen_separator_cases _ _ S) as [N ->].
  now rewrite (split_twice _ _ _ _ _ N E).
Qed.

Lemma separator_twice_raises_witness :
  extract_frontpage
    ["Instructor Report"; "2020 Spring Evals - CS1 Evals - Jane Doe"]
  = Raise ValueError.
Proof.
  apply (separator_twice_raises
           ["Instructor Report"; "2020 Spring Evals - CS1 Evals - Jane Doe"]
           "2020 Spring Evals - CS1 Evals - Jane Doe" "Evals -"
           "2020 Spring " " CS1 " " Jane Doe"); reflexivity.
Defined.

(** X7: when the text after the separator holds two closing parentheses,
    [extract_frontpage] raises [ValueError]. *)
Theorem two_parentheses_raise (table : list string)
  (line sep before after x y z : string) :
  nth_error table 1 = Some line ->
  chosen_separator line = Some sep ->
  Str.split sep line = [before; after] ->
  after = (x ++ ")" ++ y ++ ")" ++ z)%string ->
  extract_frontpage table = Raise ValueError.
Proof.
  intros H S P E. unfold extract_frontpage.
  rewrite (extract_frontpage_with_line _ _ _ H).
  unfold frontpage_of_line.
  destruct (chosen_separator_cases _ _ S) as [_ ->].
  rewrite P. cbn [unpack2 bind].
  unfold frontpage_fields.
  destruct (unpack2_cases (Str.splitn 1 " " (Str.strip before)))
    as [->|(yr & sm & ->)]; cbn [bind]; [reflexivity|].
  assert (K : Str.contains ")" after = true).
  { apply contains_iff. exists x, (y ++ ")" ++ z)%string. exact E. }
  rewrite K.
  rewrite (split_twice ")" after x y z); [reflexivity|discriminate|exact E].
Qed.

Lemma two_parentheses_raise_witness :
  extract_frontpage
    ["Instructor Report"; "2020 Spring Evals - CS1 (A) (B) Jane Doe"]
  = Raise ValueError.
Proof.
  apply (two_parentheses_raise
           ["Instructor Report"; "2020 Spring Evals - CS1 (A) (B) Jane Doe"]
           "2020 Spring Evals - CS1 (A) (B) Jane Doe" "Evals -"
           "2020 Spring " " CS1 (A) (B) Jane Doe"
           " CS1 (A" " (B" " Jane Doe"); reflexivity.
Defined.

Lemma lstrip_head (s : string) (c : ascii) (t : string) :
  Str.lstrip s = String c t -> Str.is_space c = false.
Proof.
  induction s as [|d s IH]; cbn [Str.lstrip]; [discriminate|].
  destruct (Str.is_space d) eqn:D; [exact IH|].
  now intros [= <- _].
Qed.

Lemma rstrip_head (s : string) (c : ascii) (t : string) :
  Str.rstrip s = String c t -> exists t', s = String c t'.
Proof.
  destruct s as [|d s]; cbn [Str.rstrip]; [discriminate|].
  destruct (Str.rstrip s); [destruct (Str.is_space d)|];
    try discriminate; intros [= <- _]; now eexists.
Qed.

Lemma strip_head (s : string) (c : ascii) (t : string) :
  Str.strip s = String c t -> Str.is_space c = false.
Proof.
  unfold Str.strip. intros H.
  destruct (rstrip_head _ _ _ H) as [t' E].
  now apply lstrip_head in E.
Qed.

Lemma prefix_space_false (c : ascii) (s : string) :
  prefix " " (String c s) = false -> Ascii.eqb c " " = false.
Proof.
  cbn [prefix]. destruct (ascii_dec " " c) as [<-|N].
  - now destruct s.
  - intros _. apply Ascii.eqb_neq. congruence.
Qed.

Lemma cut_space_before (s b a : string) :
  Str.cut " " s = Some (b, a) -> no_space b = true.
Proof.
  revert b. induction s as [|c s IH]; intros b; rewrite cut_unfold;
    destruct (prefix " " _) eqn:P; try (now intros [= <- _]);
    try discriminate.
  destruct (Str.cut " " s) as [[b0 a0]|]; [|discriminate].
  intros [= <- <-]. cbn [no_space].
  now rewrite (prefix_space_false _ _ P), (IH b0 eq_refl).
Qed.

(** The first of the two parts [s.strip().split(" ", 1)] unpacks into
    is a non-empty word without a space. *)
Lemma first_word (s u v : string) :
  unpack2 (Str.splitn 1 " " (Str.strip s)) = Ret (u, v) ->
  u <> EmptyString /\ no_space u = true.
Proof.
  cbn [Str.splitn].
  destruct (Str.cut " " (Str.strip s)) as [[b a]|] eqn:C; cbn [unpack2];
    [|discriminate].
  intros [= <- <-]. split; [|now apply (cut_space_before _ _ _ C)].
  destruct (Str.strip s) as [|c t] eqn:E; [discriminate C|].
  pose proof (strip_head _ _ _ E) as Hc.
  rewrite cut_unfold in C.
  assert (P : prefix " " (String c t) = false).
  { cbn [prefix]. destruct (ascii_dec " " c) as [<-|]; [discriminate Hc|].
    reflexivity. }
  rewrite P in C.
  destruct (Str.cut " " t) as [[b0 a0]|]; [|discriminate].
  injection C as <- _. discriminate.
Qed.

Lemma ends_with_app (c : ascii) (s : string) :
  ends_with c (s ++ String c EmptyString) = true.
Proof.
  induction s as [|d s IH]; cbn [String.append ends_with].
  - apply Ascii.eqb_refl.
  - destruct (s ++ String c EmptyString)%string eqn:E; [|exact IH].
    destruct s; discriminate E.
Qed.

Lemma frontpage_fields_shape (before after : string) (d : dict) :
  frontpage_fields before after = Ret (Some d) ->
  exists c i y s,
    d = front_record c i y s
    /\ y <> EmptyString /\ no_space y = true
    /\ (ends_with ")" c = true \/ (c <> EmptyString /\ no_space c = true)).
Proof.
  unfold frontpage_fields.
  destruct (unpack2 (Str.splitn 1 " " (Str.strip before)))
    as [[y s]|] eqn:U; cbn [bind]; [|discriminate].
  destruct (first_word _ _ _ U) as [Ny Sy].
  destruct (Str.contains ")" after).
  - destruct (unpack2 (Str.split ")" after)) as [[c i]|]; cbn [bind];
      [|discriminate].
    intros [= <-]. eexists _, _, _, _. split; [reflexivity|].
    repeat split; try assumption. left. cbn [fst]. apply ends_with_app.
  - destruct (unpack2 (Str.splitn 1 " " (Str.strip after)))
      as [[c i]|] eqn:V; cbn [bind]; [|discriminate].
    destruct (first_word _ _ _ V) as [Nc Sc].
    intros [= <-]. eexists _, _, _, _. split; [reflexivity|].
    repeat split; try assumption. now right.
Qed.

Lemma frontpage_of_line_fields (names : list string) (line : string)
  (d : dict) :
  frontpage_of_line names line = Ret (Some d) ->
  exists before after, frontpage_fields before after = Ret (Some d).
Proof.
  unfold frontpage_of_line.
  destruct (split_on_names names line) as [[[b a]|]|]; cbn [bind];
    try discriminate.
  - intros H. now exists b, a.
  - destruct (Str.contains "CS" line); cbn [bind]; [|discriminate].
    destruct (unpack2 (Str.splitn 1 "CS" line)) as [[b a]|]; cbn [bind];
      [|discriminate].
    intros H. now exists b, a.
Qed.

(** X8: every record [extract_frontpage] returns has the four keys, a year
    that is a non-empty word without a space, and a course that either
    ends with a closing parenthesis or is a non-empty word without a
    space. *)
Theorem frontpage_record_shape (table : list string) (d : dict) :
  extract_frontpage table = Ret (Some d) ->
  exists c i y s,
    d = front_record c i y s
    /\ y <> EmptyString /\ no_space y = true
    /\ (ends_with ")" c = true \/ (c <> EmptyString /\ no_space c = true)).
Proof.
  unfold extract_frontpage, extract_frontpage_with.
  destruct (List.length table <? 2)%nat; [discriminate|].
  destruct (index table 1) as [line|]; cbn [bind]; [|discriminate].
  intros H. destruct (frontpage_of_line_fields _ _ _ H) as (b & a & F).
  now apply frontpage_fields_shape in F.
Qed.

Lemma frontpage_record_shape_witness :
  exists c i y s,
    front_record "CS4XX-01" "Jane Doe" "2020" "Spring" = front_record c i y s
    /\ y <> EmptyString /\ no_space y = true
    /\ (ends_with ")" c = true \/ (c <> EmptyString /\ no_space c = true)).
Proof.
  apply (frontpage_record_shape ["Instructor Report"; front_line_evals]).
  reflexivity.
Defined.

End FrontPage.

(** ** The document loop: which page decides *)

Section Document.

Lemma pages_loop_idx (pages : list page) (n : nat) (fp : option dict) :
  pages_loop (S n) fp pages = pages_loop 1 fp pages.
Proof.
  revert n. induction pages as [|p rest IH]; intros n; [reflexivity|].
  cbn [pages_loop Nat.eqb].
  destruct (extract_data_from_page (extract_page p)) as [[r|]|e];
    cbn [bind]; try reflexivity.
  now rewrite IH, (IH 1%nat).
Qed.

Lemma pages_loop_first (pages : list page) (fp : option dict) :
  pages_loop 1 fp pages
  = match first_outcome pages with
    | Ret None => Ret None
    | Ret (Some r) =>
        match fp with
        | Some f => Ret (Some (dict_update f r))
        | None => Raise AttributeError
        end
    | Raise e => Raise e
    end.
Proof.
  induction pages as [|p rest IH]; [reflexivity|].
  cbn [pages_loop Nat.eqb first_outcome].
  destruct (extract_data_from_page (extract_page p)) as [[r|]|e];
    cbn [bind]; try reflexivity.
  now rewrite pages_loop_idx.
Qed.

Lemma parse_pdf_xml_cons (p0 : page) (rest : list page) :
  parse_pdf_xml (p0 :: rest)
  = (fp <- extract_frontpage (extract_page p0) ;; pages_loop 1 fp rest).
Proof. reflexivity. Qed.

Lemma parse_pdf_xml_front (p0 : page) (rest : list page) (fp : option dict) :
  extract_frontpage (extract_page p0) = Ret fp ->
  parse_pdf_xml (p0 :: rest)
  = match first_outcome rest with
    | Ret None => Ret None
    | Ret (Some r) =>
        match fp with
        | Some f => Ret (Some (dict_update f r))
        | None => Raise AttributeError
        end
    | Raise e => Raise e
    end.
Proof.
  intros F. rewrite parse_pdf_xml_cons, F. cbn [bind].
  apply pages_loop_first.
Qed.

Lemma first_outcome_skip (skipped rest : list page) :
  Forall no_match skipped ->
  first_outcome (skipped ++ rest) = first_outcome rest.
Proof.
  induction 1 as [|p skipped H _ IH]; [reflexivity|].
  cbn [app first_outcome]. unfold no_match in H. now rewrite H.
Qed.

Lemma first_outcome_record (pages : list page) (r : dict) :
  first_outcome pages = Ret (Some r) ->
  exists m s c p b a g e, r = rating_record m s c p b a g e.
Proof.
  induction pages as [|q rest IH]; cbn [first_outcome]; [discriminate|].
  destruct (extract_data_from_page_outcome (extract_page q))
    as [->|[->|[->|(m & s & c & p & b & a & g & e & ->)]]];
    try discriminate; [exact IH|].
  intros [= <-]. now eexists _, _, _, _, _, _, _, _.
Qed.

Lemma parse_pdf_xml_merged (pages : list page) (d : dict) :
  parse_pdf_xml pages = Ret (Some d) ->
  exists c i y s m sd cnt p b a g e,
    d = front_record c i y s ++ rating_record m sd cnt p b a g e.
Proof.
  destruct pages as [|p0 rest]; [discriminate|].
  destruct (extract_frontpage_outcome (extract_page p0))
    as [E|[E|(c & i & y & s & E)]].
  - rewrite (parse_pdf_xml_front _ _ _ E).
    destruct (first_outcome rest) as [[r|]|]; discriminate.
  - rewrite parse_pdf_xml_cons, E. discriminate.
  - rewrite (parse_pdf_xml_front _ _ _ E).
    destruct (first_outcome rest) as [[r|]|] eqn:F; try discriminate.
    destruct (first_outcome_record _ _ F)
      as (m & sd & cnt & p & b & a & g & e & ->).
    intros [= <-]. now eexists _, _, _, _, _, _, _, _, _, _, _, _.
Qed.

(** X11: every record [parse_pdf_xml] returns is the front-page record
    followed by the rating record: twelve keys, none written twice. *)
Theorem parse_pdf_xml_record (pages : list page) (d : dict) :
  parse_pdf_xml pages = Ret (Some d) ->
  exists c i y s m sd cnt p b a g e,
    d = front_record c i y s ++ rating_record m sd cnt p b a g e.
Proof. apply parse_pdf_xml_merged. Qed.

Lemma parse_pdf_xml_record_witness :
  exists c i y s m sd cnt p b a g e,
    front_record "CS4XX-01" "Jane Doe" "2020" "Spring"
      ++ rating_record "4.10" "0.95" "25" "1" "2" "7" "7" "10"
    = front_record c i y s ++ rating_record m sd cnt p b a g e.
Proof.
  apply (parse_pdf_xml_record document_complete).
  vm_compute. reflexivity.
Defined.

(** X12: a record returned by [parse_pdf_xml] never lacks a key
    [Rating.from_dict] reads: the conversion gives a [Rating] or raises
    [ValueError], never [KeyError]. *)
Theorem parsed_record_converts (pages : list page) (d : dict) :
  parse_pdf_xml pages = Ret (Some d) ->
  (exists r, Calculate.from_dict d = Calculate.Ok r) \/ Calculate.from_dict d = Calculate.Err Calculate.ValueError.
Proof.
  intros H.
  destruct (parse_pdf_xml_merged _ _ H)
    as (c & i & y & s & m & sd & cnt & p & b & a & g & e & ->).
  rewrite from_dict_merged, from_dict_rating_record.
  destruct (int_of_string_cases p) as [[? ->]| ->]; cbn [Calculate.bind];
    [|now right].
  destruct (int_of_string_cases b) as [[? ->]| ->]; cbn [Calculate.bind];
    [|now right].
  destruct (int_of_string_cases a) as [[? ->]| ->]; cbn [Calculate.bind];
    [|now right].
  destruct (int_of_string_cases g) as [[? ->]| ->]; cbn [Calculate.bind];
    [|now right].
  destruct (int_of_string_cases e) as [[? ->]| ->]; cbn [Calculate.bind];
    [|now right].
  left. now eexists.
Qed.

Lemma parsed_record_converts_witness :
  (exists r,
      Calculate.from_dict
        (front_record "CS4XX-01" "Jane Doe" "2020" "Spring"
         ++ rating_record "4.10" "0.95" "25" "1" "2" "7" "7" "10")
      = Calculate.Ok r)
  \/ Calculate.from_dict
       (front_record "CS4XX-01" "Jane Doe" "2020" "Spring"
        ++ rating_record "4.10" "0.95" "25" "1" "2" "7" "7" "10")
     = Calculate.Err Calculate.ValueError.
Proof.
  apply (parsed_record_converts document_complete).
  vm_compute. reflexivity.
Defined.

(** X13: the first page after the front page that matches the rating table
    decides: its record is merged into the front-page record, and the
    pages after it are not looked at. *)
Theorem first_match_wins (p0 p1 : page) (skipped rest : list page)
  (f r : dict) :
  extract_frontpage (extract_page p0) = Ret (Some f) ->
  Forall no_match skipped ->
  extract_data_from_page (extract_page p1) = Ret (Some r) ->
  parse_pdf_xml (p0 :: skipped ++ p1 :: rest) = Ret (Some (dict_update f r)).
Proof.
  intros F S R.
  rewrite (parse_pdf_xml_front _ _ _ F), (first_outcome_skip _ _ S).
  cbn [first_outcome]. now rewrite R.
Qed.

Lemma first_match_wins_witness :
  parse_pdf_xml (front_words :: [place 1 0 ["Comments"]]
                   ++ rating_words :: [rating_words; []])
  = Ret (Some (dict_update
                 (front_record "CS4XX-01" "Jane Doe" "2020" "Spring")
                 (rating_record "4.10" "0.95" "25" "1" "2" "7" "7" "10"))).
Proof.
  apply (first_match_wins front_words rating_words
           [place 1 0 ["Comments"]] [rating_words; []]).
  - vm_compute. reflexivity.
  - repeat constructor.
  - vm_compute. reflexivity.
Defined.

(** X14: when no page after the first matches the rating table, the document
    gives [None], whether or not the first page gave front matter; the
    first page itself is never searched for the table. *)
Theorem no_rating_page (p0 : page) (rest : list page) (fp : option dict) :
  extract_frontpage (extract_page p0) = Ret fp ->
  Forall no_match rest ->
  parse_pdf_xml (p0 :: rest) = Ret None.
Proof.
  intros F S.
  rewrite (parse_pdf_xml_front _ _ _ F).
  rewrite <- (app_nil_r rest), (first_outcome_skip _ _ S). reflexivity.
Qed.

Lemma no_rating_page_witness :
  parse_pdf_xml [rating_words] = Ret None.
Proof.
  apply (no_rating_page rating_words [] None); [|constructor].
  vm_compute. reflexivity.
Defined.

(** X15: an exception raised on a page is raised by [parse_pdf_xml]: on the
    first page whatever follows, and on a later page when no page
    between the first and it matches, whatever the first page gave and
    whatever follows. *)
Theorem page_exception_propagates (p0 p1 : page) (skipped rest : list page)
  (e : exn) :
  (extract_frontpage (extract_page p0) = Raise e ->
   parse_pdf_xml (p0 :: rest) = Raise e)
  /\ (forall fp,
        extract_frontpage (extract_page p0) = Ret fp ->
        Forall no_match skipped ->
        extract_data_from_page (extract_page p1) = Raise e ->
        parse_pdf_xml (p0 :: skipped ++ p1 :: rest) = Raise e).
Proof.
  split.
  - intros F. now rewrite parse_pdf_xml_cons, F.
  - intros fp F S R.
    rewrite (parse_pdf_xml_front _ _ _ F), (first_outcome_skip _ _ S).
    cbn [first_outcome]. now rewrite R.
Qed.

Lemma page_exception_propagates_witness :
  parse_pdf_xml (front_words :: [] ++ place 1 0 title_words :: [rating_words])
  = Raise IndexError.
Proof.
  destruct (page_exception_propagates front_words (place 1 0 title_words)
              [] [rating_words] IndexError) as [_ H].
  apply (H (Some (front_record "CS4XX-01" "Jane Doe" "2020" "Spring"))).
  - vm_compute. reflexivity.
  - constructor.
  - vm_compute. reflexivity.
Defined.

(** X4: [extract_data_from_page] reads the third line and the last line
    only: the lines between them do not change its result. *)
Theorem middle_lines_ignored (l0 ll : string) (mid mid' : list string) :
  extract_data_from_page (LINE_TITLE :: LINE_COLS :: l0 :: mid ++ [ll])
  = extract_data_from_page (LINE_TITLE :: LINE_COLS :: l0 :: mid' ++ [ll]).
Proof.
  rewrite !extract_data_from_page_matched.
  now rewrite !app_comm_cons, !last_last.
Qed.

End Document.

(** ** Line reconstruction: the order of the words in the document *)

Section WordOrder.

Lemma same_key_sym (a b : Word.t) : same_key a b = same_key b a.
Proof.
  unfold same_key.
  now rewrite (Qeq_bool_comm (Word.y a)), (Qeq_bool_comm (Word.x a)).
Qed.

Lemma key_le_antisym (a b : Word.t) :
  key_le a b -> key_le b a -> same_key a b = true.
Proof.
  unfold key_le, same_key. intros H K.
  apply andb_true_iff. split; apply Qeq_bool_iff; lra.
Qed.

Lemma distinct_perm (l l' : list Word.t) :
  Permutation l l' -> distinct_positions l -> distinct_positions l'.
Proof.
  unfold distinct_positions.
  induction 1 as [|x l l' P IH|x y l|l l' l'' P1 IH1 P2 IH2]; intros D.
  - constructor.
  - inversion D as [|? ? F D']; subst.
    constructor; [|now apply IH].
    now apply (Permutation_Forall P).
  - inversion D as [|? ? F D']; subst.
    inversion D' as [|? ? F' D'']; subst.
    inversion F as [|? ? Hyx F'']; subst.
    constructor; [|now constructor].
    constructor; [now rewrite same_key_sym|assumption].
  - auto.
Qed.

(** Two sorted lists of words at distinct positions that hold the same
    words are equal. *)
Lemma sorted_unique (l l' : list Word.t) :
  StronglySorted key_le l -> StronglySorted key_le l' ->
  distinct_positions l -> Permutation l l' -> l = l'.
Proof.
  revert l'. induction l as [|a l IH]; intros l' S S' D P.
  - apply Permutation_nil in P. now subst.
  - destruct l' as [|a' l'];
      [apply Permutation_sym, Permutation_nil in P; discriminate|].
    apply StronglySorted_inv in S. destruct S as [S F].
    apply StronglySorted_inv in S'. destruct S' as [S' F'].
    inversion D as [|? ? Da D']; subst.
    rewrite Forall_forall in F, F', Da.
    assert (E : a = a').
    { assert (Ha' : In a' (a :: l))
        by (apply (Permutation_in _ (Permutation_sym P)); now left).
      assert (Ha : In a (a' :: l'))
        by (apply (Permutation_in _ P); now left).
      destruct Ha' as [E|Ha']; [exact E|].
      destruct Ha as [E|Ha]; [now symmetry|].
      pose proof (key_le_antisym _ _ (F _ Ha') (F' _ Ha)) as K.
      rewrite (Da _ Ha') in K. discriminate. }
    subst a'. f_equal.
    apply IH; try assumption. now apply Permutation_cons_inv in P.
Qed.

(** X9: on a page where no two words have the same position, the order of
    the words in the document does not matter: any rearrangement gives
    the same lines. *)
Theorem extract_page_perm (p p' : page) :
  distinct_positions p -> Permutation p p' ->
  extract_page p = extract_page p'.
Proof.
  intros D P.
  assert (E : sort_words p = sort_words p').
  { apply sorted_unique.
    - apply sort_words_sorted.
    - apply sort_words_sorted.
    - apply (distinct_perm p); [|assumption].
      apply Permutation_sym, sort_words_perm.
    - rewrite (sort_words_perm p), P. apply Permutation_sym, sort_words_perm. }
  unfold extract_page. now rewrite E.
Qed.

Lemma extract_page_perm_witness :
  extract_page [Word.mk "Doe" 7 2; Word.mk "Report" 1 1; Word.mk "Jane" 3 2]
  = extract_page
      [Word.mk "Report" 1 1; Word.mk "Doe" 7 2; Word.mk "Jane" 3 2].
Proof.
  apply extract_page_perm.
  - repeat constructor.
  - apply perm_swap.
Defined.

End WordOrder.

(** ** What the extractors read, and how totals combine *)

Section Reading.

(** X5: [extract_frontpage] reads the second line and nothing else: two
    pages with the same second line (or both without one) give the same
    result. *)
Theorem extract_frontpage_second_line (table table' : list string) :
  nth_error table 1 = nth_error table' 1 ->
  extract_frontpage table = extract_frontpage table'.
Proof.
  intros E. unfold extract_frontpage.
  destruct (nth_error table 1) as [line|] eqn:H.
  - rewrite (extract_frontpage_with_line _ _ _ H).
    symmetry in E. now rewrite (extract_frontpage_with_line _ _ _ E).
  - symmetry in E. apply nth_error_None in H, E.
    unfold extract_frontpage_with.
    assert (L : (List.length table <? 2)%nat = true) by (apply Nat.ltb_lt; lia).
    assert (L' : (List.length table' <? 2)%nat = true)
      by (apply Nat.ltb_lt; lia).
    now rewrite L, L'.
Qed.

Lemma extract_frontpage_second_line_witness :
  extract_frontpage ["Instructor Report"; front_line_evals]
  = extract_frontpage ["Page 1"; front_line_evals; "Summary"].
Proof.
  apply (extract_frontpage_second_line
           ["Instructor Report"; front_line_evals]
           ["Page 1"; front_line_evals; "Summary"]).
  reflexivity.
Defined.

Lemma groups_length (G : list (list Word.t)) :
  Forall (fun g => g <> []) G ->
  (List.length G <= List.length (concat G))%nat.
Proof.
  induction 1 as [|g G N _ IH]; cbn [concat List.length]; [lia|].
  rewrite List.length_app. destruct g; [congruence|]. cbn [List.length]. lia.
Qed.

Lemma drop_sentinel_length (table : list string) :
  (List.length (drop_sentinel table) <= List.length table)%nat.
Proof.
  destruct table as [|l rest]; cbn [drop_sentinel]; [lia|].
  destruct (String.eqb l SENTINEL); cbn [List.length]; lia.
Qed.

(** X10: a page never gives more lines than it has words. *)
Theorem extract_page_length (p : page) :
  (List.length (extract_page p) <= List.length p)%nat.
Proof.
  destruct (extract_page_groups p) as (G & E & P & _ & F).
  rewrite E. etransitivity; [apply drop_sentinel_length|].
  rewrite length_map, <- (Permutation_length P).
  apply groups_length.
  eapply Forall_impl; [|exact F]. now intros g [N _].
Qed.

Lemma fold_add_from (l : list Rating) (a : Rating) :
  fold_left RatingOps.add l a = RatingOps.add a (Calculate.accumulate l).
Proof.
  unfold Calculate.accumulate. revert a.
  induction l as [|x l IH]; intros a; cbn [fold_left].
  - destruct a; unfold RatingOps.add, RatingOps.zero; simpl.
    f_equal; lia.
  - rewrite IH, (IH (RatingOps.add RatingOps.zero x)).
    destruct a, x, (fold_left RatingOps.add l RatingOps.zero);
      unfold RatingOps.add, RatingOps.zero; simpl; f_equal; lia.
Qed.

(** X18: the total of two batches of ratings is the sum, by [add], of the
    totals of the batches; the total of no rating is [zero], of one
    rating the rating itself. *)
Theorem accumulate_app (l l' : list Rating) (r : Rating) :
  Calculate.accumulate (l ++ l')
  = RatingOps.add (Calculate.accumulate l) (Calculate.accumulate l')
  /\ Calculate.accumulate [] = RatingOps.zero
  /\ Calculate.accumulate [r] = r.
Proof.
  split; [|split].
  - unfold Calculate.accumulate at 1. rewrite fold_left_app.
    apply fold_add_from.
  - reflexivity.
  - destruct r; unfold Calculate.accumulate, RatingOps.add; simpl.
    reflexivity.
Qed.

End Reading.
